(** * Property event logging service: model and verified properties

    Shallow embedding of the request handlers of [src/server/server.py]
    (and of the earlier variant [src/server.py]) over an explicit model of
    the two tables the service keeps, [properties] and [logs].

    - [PyDatetime]: the values of Python's [datetime] module the handlers
      use ([time.min], [time.max], [datetime.time()], [datetime.combine],
      [datetime.fromisoformat]).
    - [Http]: [HTTPException] and the "return or raise" monad of a handler.
    - [Db]: the rows, the session and the queries the handlers issue.
    - [Server]: the handlers of [src/server/server.py].
    - [Legacy]: the handlers of [src/server.py].
    - [Endpoint], [LegacyEndpoint]: the handlers with the integer range
      of the SQLite driver.
    - [Main]: the start of [src/server/server.py] run as a script.
    - [Keys]: the order of the primary keys in a table.
    - then the theorems. *)

From Stdlib Require Import ZArith List String Ascii Bool Lia Sorted Permutation.
Import ListNotations.

Local Open Scope string_scope.
Local Open Scope list_scope.
Local Open Scope Z_scope.

(* ================================================================= *)
(** ** Python's [datetime] values *)

Module PyDatetime.

(** [datetime.time].  The service only ever builds naive times:
    [time.min], [time.max] and the result of [datetime.time()], which
    drops the offset. *)
Record time : Type := mkTime {
  t_hour : Z;
  t_minute : Z;
  t_second : Z;
  t_microsecond : Z
}.

(** [datetime.datetime]; [tzinfo] is the UTC offset in microseconds of an
    aware value and [None] for a naive one. *)
Record datetime : Type := mkDatetime {
  year : Z;
  month : Z;
  day : Z;
  hour : Z;
  minute : Z;
  second : Z;
  microsecond : Z;
  tzinfo : option Z
}.

(** [time.min] and [time.max]. *)
Definition time_min : time := mkTime 0 0 0 0.
Definition time_max : time := mkTime 23 59 59 999999.

(** [d.time()]: same hour, minute, second and microsecond, no tzinfo. *)
Definition datetime_time (d : datetime) : time :=
  mkTime (hour d) (minute d) (second d) (microsecond d).

(** [t1 == t2] on two naive times. *)
Definition time_eqb (a b : time) : bool :=
  (t_hour a =? t_hour b) && (t_minute a =? t_minute b)
  && (t_second a =? t_second b) && (t_microsecond a =? t_microsecond b).

(** [datetime.combine(d, t)] where [d] is itself a datetime: its date
    part is kept, its time part and its tzinfo are ignored, and the
    tzinfo of the result is the one of [t] (none, for a naive time). *)
Definition combine (d : datetime) (t : time) : datetime :=
  mkDatetime (year d) (month d) (day d)
             (t_hour t) (t_minute t) (t_second t) (t_microsecond t) None.

(** *** Calendar checks of the [datetime] constructor *)

Definition is_leap (y : Z) : bool :=
  (y mod 4 =? 0) && (negb (y mod 100 =? 0) || (y mod 400 =? 0)).

Definition days_in_month (y m : Z) : Z :=
  if m =? 2 then (if is_leap y then 29 else 28)
  else if (m =? 4) || (m =? 6) || (m =? 9) || (m =? 11) then 30
  else 31.

Definition in_range (lo x hi : Z) : bool := (lo <=? x) && (x <=? hi).

(** The constructor raises [ValueError] outside these ranges. *)
Definition valid_fields (y mo d h mi s us : Z) : bool :=
  in_range 1 y 9999 && in_range 1 mo 12
  && in_range 1 d (days_in_month y mo)
  && in_range 0 h 23 && in_range 0 mi 59 && in_range 0 s 59
  && in_range 0 us 999999.

(** *** [datetime.fromisoformat]

    The ISO 8601 forms the library reads (Python 3.11), on the UTF-8
    bytes of the string: a date [YYYY-MM-DD], [YYYYMMDD], [YYYY-Www],
    [YYYYWww], [YYYY-Www-D] or [YYYYWwwD]; then, optionally, one
    separator character and a time [HH[:MM[:SS[.f+]]]] or [HH[MM[SS[.f+]]]]
    (the fraction after [.] or [,], cut after six digits), itself
    followed, optionally, by [Z] or by a signed offset written like a
    time.  [None] stands for the [ValueError] the library raises. *)

Definition digit_val (c : ascii) : option Z :=
  let n := Z.of_nat (nat_of_ascii c) in
  if in_range 48 n 57 then Some (n - 48) else None.

(** Reads exactly [n] decimal digits; [acc] is the value read so far. *)
Fixpoint parse_digits (n : nat) (acc : Z) (s : list ascii)
  : option (Z * list ascii) :=
  match n with
  | O => Some (acc, s)
  | S n' =>
      match s with
      | [] => None
      | c :: rest =>
          match digit_val c with
          | Some v => parse_digits n' (10 * acc + v) rest
          | None => None
          end
      end
  end.

Definition is_char (c : ascii) (x : ascii) : bool := Ascii.eqb c x.

(** The byte that ends the text. *)
Definition NUL : ascii := zero.

Definition is_digit (c : ascii) : bool :=
  match digit_val c with Some _ => true | None => false end.

(** The byte at an index, [NUL] past the end. *)
Definition byte_at (s : list ascii) (i : nat) : ascii := nth i s NUL.

Fixpoint skip_digits (s : list ascii) : list ascii :=
  match s with
  | c :: rest => if is_digit c then skip_digits rest else s
  | [] => []
  end.

(** Where the date ends: the index of the separator character, found
    from the length and the fifth, sixth, ninth and eleventh bytes.  In
    [YYYYWww...] the digits that follow decide: they come in pairs after
    the separator, so an even index of the first non-digit tells that
    no day digit was written. *)
Definition find_isoformat_datetime_separator (s : list ascii) : option nat :=
  let len := List.length s in
  if (len =? 7)%nat then Some 7%nat
  else if is_char "-" (byte_at s 4) then
    if is_char "W" (byte_at s 5) then
      if (len <? 8)%nat then None
      else if (8 <? len)%nat && is_char "-" (byte_at s 8) then
        if (len =? 9)%nat then None
        else if (10 <? len)%nat && is_digit (byte_at s 10) then Some 8%nat
        else Some 10%nat
      else Some 8%nat
    else Some 10%nat
  else if is_char "W" (byte_at s 4) then
    let idx := (len - List.length (skip_digits (skipn 7 s)))%nat in
    if (idx <? 9)%nat then Some idx
    else if Nat.even idx then Some 7%nat
    else Some 8%nat
  else Some 8%nat.

(** *** Ordinals of days, for the week dates *)

Definition days_before_year (y : Z) : Z :=
  let y1 := y - 1 in
  y1 * 365 + y1 / 4 - y1 / 100 + y1 / 400.

Definition days_before_month (y m : Z) : Z :=
  fold_right Z.add 0
    (map (days_in_month y)
         (filter (fun k => k <? m) [1; 2; 3; 4; 5; 6; 7; 8; 9; 10; 11; 12])).

Definition ymd_to_ord (y m d : Z) : Z :=
  days_before_year y + days_before_month y m + d.

(** The day of the week, Monday being 0. *)
Definition weekday (y m d : Z) : Z := (ymd_to_ord y m d + 6) mod 7.

(** The ordinal of the Monday that starts ISO week 1 of the year. *)
Definition iso_week1_monday (y : Z) : Z :=
  let first_day := ymd_to_ord y 1 1 in
  let first_weekday := (first_day + 6) mod 7 in
  let week1_monday := first_day - first_weekday in
  if 3 <? first_weekday then week1_monday + 7 else week1_monday.

(** The month and the day of the [n]-th day (from 0) of a year, looked
    for from month [m] on. *)
Fixpoint month_of_day (fuel : nat) (y m n : Z) : Z * Z :=
  match fuel with
  | O => (m, n + 1)
  | S fuel' =>
      if days_in_month y m <=? n
      then month_of_day fuel' y (m + 1) (n - days_in_month y m)
      else (m, n + 1)
  end.

Definition ord_to_ymd (ordinal : Z) : Z * Z * Z :=
  let n := ordinal - 1 in
  let n400 := n / 146097 in
  let n := n mod 146097 in
  let n100 := n / 36524 in
  let n := n mod 36524 in
  let n4 := n / 1461 in
  let n := n mod 1461 in
  let n1 := n / 365 in
  let n := n mod 365 in
  let y := n400 * 400 + 1 + n100 * 100 + n4 * 4 + n1 in
  if (n1 =? 4) || (n100 =? 4) then (y - 1, 12, 31)
  else let '(m, d) := month_of_day 12 y 1 n in (y, m, d).

(** Year, week and day of the week to year, month and day. *)
Definition iso_to_ymd (y w d : Z) : option (Z * Z * Z) :=
  let week_ok :=
    if (w <=? 0) || (53 <=? w)
    then (w =? 53)
         && ((weekday y 1 1 =? 3) || ((weekday y 1 1 =? 2) && is_leap y))
    else true in
  if negb week_ok then None
  else if (d <=? 0) || (8 <=? d) then None
  else Some (ord_to_ymd (iso_week1_monday y + (w - 1) * 7 + d - 1)).

(** *** The date *)

(** [uses_separator && *(p++) != '-']: with dashes in use a dash is
    read; without, nothing is. *)
Definition read_dash (uses_separator : bool) (p : list ascii)
  : option (list ascii) :=
  if uses_separator then
    match p with
    | c :: rest => if is_char "-" c then Some rest else None
    | [] => None
    end
  else Some p.

(** The date at the head of the whole text [s]; [separator_location] is
    where [find_isoformat_datetime_separator] puts the separator. *)
Definition parse_isoformat_date (s : list ascii) (separator_location : nat)
  : option (Z * Z * Z) :=
  match parse_digits 4 0 s with
  | None => None
  | Some (year, p) =>
      let uses_separator := is_char "-" (byte_at p 0) in
      let p := if uses_separator then tl p else p in
      if is_char "W" (byte_at p 0) then
        match parse_digits 2 0 (tl p) with
        | None => None
        | Some (iso_week, p) =>
            if (List.length s - List.length p <? separator_location)%nat then
              match read_dash uses_separator p with
              | None => None
              | Some p =>
                  match parse_digits 1 0 p with
                  | None => None
                  | Some (iso_day, _) => iso_to_ymd year iso_week iso_day
                  end
              end
            else iso_to_ymd year iso_week 1
        end
      else
        match parse_digits 2 0 p with
        | None => None
        | Some (month, p) =>
            match read_dash uses_separator p with
            | None => None
            | Some p =>
                match parse_digits 2 0 p with
                | None => None
                | Some (day, _) => Some (year, month, day)
                end
            end
        end
  end.

(** *** The time *)

(** How the reading of hours, minutes and seconds stops: at the end of
    the part, on the byte [c] read last, or before a fraction. *)
Inductive clock_end : Type :=
| Ended (c : ascii)
| Fraction (p : list ascii).

(** Up to [n] two-digit fields from [p]; [after] is the byte that follows
    the part ([NUL] at the end of the text), [first] tells the first
    field, after which a colon decides whether colons are in use. *)
Fixpoint parse_fields (n : nat) (first has_separator : bool)
         (p : list ascii) (after : ascii)
  : option (list Z * clock_end) :=
  match n with
  | O => Some ([], Fraction p)
  | S n' =>
      match parse_digits 2 0 p with
      | None => None
      | Some (v, rest) =>
          let c := hd after rest in
          let p' := tl rest in
          let has_separator :=
            if first then is_char ":" c else has_separator in
          match p' with
          | [] => Some ([v], Ended c)
          | _ :: _ =>
              if has_separator && is_char ":" c then
                match parse_fields n' false has_separator p' after with
                | Some (vs, e) => Some (v :: vs, e)
                | None => None
                end
              else if is_char "." c || is_char "," c then
                Some ([v], Fraction p')
              else if negb has_separator then
                match parse_fields n' false has_separator rest after with
                | Some (vs, e) => Some (v :: vs, e)
                | None => None
                end
              else None
          end
      end
  end.

(** Hours, minutes, seconds and microseconds of a part, and whether text
    is left after it. *)
Definition parse_hh_mm_ss_ff (s : list ascii) (after : ascii)
  : option (Z * Z * Z * Z * bool) :=
  match parse_fields 3 true true s after with
  | None => None
  | Some (vals, e) =>
      let h := nth 0 vals 0 in
      let mi := nth 1 vals 0 in
      let sec := nth 2 vals 0 in
      match e with
      | Ended c => Some (h, mi, sec, 0, negb (is_char NUL c))
      | Fraction p =>
          let to_parse := Nat.min (List.length p) 6 in
          match parse_digits to_parse 0 p with
          | None => None
          | Some (us, rest) =>
              let us := us * 10 ^ (6 - Z.of_nat to_parse) in
              let next := hd after (skip_digits rest) in
              Some (h, mi, sec, us, negb (is_char NUL next))
          end
      end
  end.

Definition is_tz_mark (c : ascii) : bool :=
  is_char "Z" c || is_char "+" c || is_char "-" c.

(** Splits the time part at its first [Z], [+] or [-]: the clock text,
    and the mark with the text after it when there is one. *)
Fixpoint split_offset (s : list ascii)
  : list ascii * option (ascii * list ascii) :=
  match s with
  | [] => ([], None)
  | c :: rest =>
      if is_tz_mark c then ([], Some (c, rest))
      else let '(clock, off) := split_offset rest in (c :: clock, off)
  end.

Definition day_us : Z := 24 * 3600 * 1000000.

(** The offset after a sign, in microseconds: UTC when hours, minutes
    and seconds are all zero; it has to be strictly between minus and
    plus one day. *)
Definition parse_offset (sign : Z) (s : list ascii) : option Z :=
  match parse_hh_mm_ss_ff s NUL with
  | None => None
  | Some (h, mi, sec, us, more) =>
      if more then None
      else
        let seconds := h * 3600 + mi * 60 + sec in
        let off := if seconds =? 0 then 0
                   else sign * (seconds * 1000000 + us) in
        if (- day_us <? off) && (off <? day_us) then Some off else None
  end.

(** The time part: clock, then an optional [Z], which has to end the
    text, or an offset. *)
Definition parse_isoformat_time (s : list ascii)
  : option (Z * Z * Z * Z * option Z) :=
  let '(clock, off) := split_offset s in
  let after := match off with Some (c, _) => c | None => NUL end in
  match parse_hh_mm_ss_ff clock after with
  | None => None
  | Some (h, mi, sec, us, more) =>
      match off with
      | None => if more then None else Some (h, mi, sec, us, None)
      | Some (mark, text) =>
          if is_char "Z" mark then
            if is_char NUL (hd NUL text)
            then Some (h, mi, sec, us, Some 0) else None
          else
            match parse_offset (if is_char "-" mark then -1 else 1) text with
            | Some o => Some (h, mi, sec, us, Some o)
            | None => None
            end
      end
  end.

(** What follows the separator character, which may take one to four
    bytes. *)
Definition skip_separator (s : list ascii) : list ascii :=
  match s with
  | [] => []
  | c :: _ =>
      let n := Z.of_nat (nat_of_ascii c) in
      if Z.land n 128 =? 0 then skipn 1 s
      else if Z.land n 240 =? 224 then skipn 3 s
      else if Z.land n 240 =? 240 then skipn 4 s
      else skipn 2 s
  end.

Definition fromisoformat (date_string : string) : option datetime :=
  let s := list_ascii_of_string date_string in
  if (List.length s <? 7)%nat then None else
  match find_isoformat_datetime_separator s with
  | None => None
  | Some separator_location =>
      match parse_isoformat_date s separator_location with
      | None => None
      | Some (y, mo, d) =>
          if (separator_location <? List.length s)%nat then
            match parse_isoformat_time
                    (skip_separator (skipn separator_location s)) with
            | None => None
            | Some (h, mi, sec, us, tz) =>
                if valid_fields y mo d h mi sec us
                then Some (mkDatetime y mo d h mi sec us tz) else None
            end
          else
            if valid_fields y mo d 0 0 0 0
            then Some (mkDatetime y mo d 0 0 0 0 None) else None
      end
  end.

(** The date-only form the messages of the service name, [YYYY-MM-DD]:
    ten bytes, digits but for the two dashes. *)
Definition is_date_only (date_string : string) : bool :=
  match list_ascii_of_string date_string with
  | [y1; y2; y3; y4; d1; m1; m2; d2; a1; a2] =>
      is_digit y1 && is_digit y2 && is_digit y3 && is_digit y4
      && is_char "-" d1 && is_digit m1 && is_digit m2
      && is_char "-" d2 && is_digit a1 && is_digit a2
  | _ => false
  end.

(** *** Stored timestamps

    The [DateTime] column of the SQLite dialect stores
    [YYYY-MM-DD HH:MM:SS.ffffff], without offset, and the same
    conversion is applied to a value a query compares the column with. *)
Definition bind_datetime (d : datetime) : datetime :=
  mkDatetime (year d) (month d) (day d)
             (hour d) (minute d) (second d) (microsecond d) None.

Fixpoint lex_compare (a b : list Z) : comparison :=
  match a, b with
  | [], [] => Eq
  | [], _ :: _ => Lt
  | _ :: _, [] => Gt
  | x :: a', y :: b' =>
      match x ?= y with
      | Eq => lex_compare a' b'
      | c => c
      end
  end.

Definition fields (d : datetime) : list Z :=
  [year d; month d; day d; hour d; minute d; second d; microsecond d].

(** SQL [a >= b] on two stored timestamps: the order of the fixed-width
    text, which is the lexicographic order of the fields. *)
Definition sql_ge (a b : datetime) : bool :=
  match lex_compare (fields (bind_datetime a)) (fields (bind_datetime b)) with
  | Lt => false
  | _ => true
  end.

End PyDatetime.

(* ================================================================= *)
(** ** Handler results *)

Module Http.

(** [fastapi.HTTPException(status_code=..., detail=...)]. *)
Record HTTPException : Type := mkHTTPException {
  status_code : Z;
  detail : string
}.

(** What a handler does: it returns a value or raises. *)
Inductive result (A : Type) : Type :=
| Return (a : A)
| Raise (e : HTTPException).

Arguments Return {A} a.
Arguments Raise {A} e.

Definition bind {A B : Type} (m : result A) (k : A -> result B) : result B :=
  match m with
  | Return a => k a
  | Raise e => Raise e
  end.

(** The JSON object of a [{"message": ...}] answer. *)
Definition json : Type := list (string * string).

End Http.

Notation "x <- m ;; k" := (Http.bind m (fun x => k))
  (at level 61, m at next level, right associativity).

(* ================================================================= *)
(** ** The tables and the queries *)

(** Row of [properties]. *)
Module Property.
Record t : Type := mk {
  id : Z;
  number : string;
  notes : string
}.
End Property.

(** Row of [logs]. *)
Module Log.
Record t : Type := mk {
  propertyId : Z;
  id : Z;
  timestamp : PyDatetime.datetime;
  description : string
}.
End Log.

Module Db.
Import PyDatetime.

(** The committed content of the store, each table in the order a scan
    of it yields its rows (the order of the row ids: a new row gets an
    id above all others and is put last). *)
Record Session : Type := mkSession {
  properties : list Property.t;
  logs : list Log.t
}.

(** Integer primary key of a new row: 1 in an empty table, otherwise one
    more than the largest id in use. *)
Definition next_rowid (ids : list Z) : Z :=
  match ids with
  | [] => 1
  | x :: rest => 1 + fold_right Z.max x rest
  end.

(** *** Filter expressions on [Log] *)

Inductive criterion : Type :=
| Log_propertyId_eq (v : Z)        (* Log.propertyId == v *)
| Log_id_eq (v : Z)                (* Log.id == v *)
| Log_timestamp_ge (d : datetime). (* Log.timestamp >= d *)

(** [bool(e)] for an [==] between a column and a value: the expression
    compares the hashes of its two operands, which are two different
    objects, so it is false.  (The handlers take the truth value of
    [==] expressions only.) *)
Definition criterion_bool (e : criterion) : bool := false.

(** Python's [a and b]: [b] when [a] is true, [a] itself otherwise. *)
Definition py_and (a b : criterion) : criterion :=
  if criterion_bool a then b else a.

(** The SQL condition an expression stands for, on a row of [logs]. *)
Definition holds (e : criterion) (l : Log.t) : bool :=
  match e with
  | Log_propertyId_eq v => Log.propertyId l =? v
  | Log_id_eq v => Log.id l =? v
  | Log_timestamp_ge d => sql_ge (Log.timestamp l) d
  end.

(** *** Queries *)

(** [db.query(Log)] with its [.filter(...)] calls: the conditions, all of
    which a row has to meet. *)
Definition log_query : Type := list criterion.

Definition filter_ (q : log_query) (e : criterion) : log_query := q ++ [e].

(** [query.all()] on a query of [Log]. *)
Definition all_logs (q : log_query) (db : Session) : list Log.t :=
  filter (fun l => forallb (fun e => holds e l) q) (logs db).

(** [db.query(Property).filter(Property.id == v).all()], for a [v] the
    driver binds (see [bound], below). *)
Definition all_properties_by_id (v : Z) (db : Session) : list Property.t :=
  filter (fun p => Property.id p =? v) (properties db).

(** [db.query(Property).filter(e).all()] for a condition [e] on [Log]:
    the statement selects the columns of [properties] from both tables,
    [FROM properties, logs WHERE e], with no condition joining them. *)
Definition all_properties_where_log (e : criterion) (db : Session)
  : list Property.t :=
  map fst (filter (fun pl => holds e (snd pl))
                  (list_prod (properties db) (logs db))).

(** [.first()]: the first row of the result, [None] when there is none. *)
Definition first {A : Type} (rows : list A) : option A := hd_error rows.

(** *** Writes (each handler commits once, after its last write) *)

(** [db.add(Property(number=..., notes=...))], [db.commit()],
    [db.refresh(...)]: the row as stored, and the new content. *)
Definition add_property (number notes : string) (db : Session)
  : Property.t * Session :=
  let row := Property.mk (next_rowid (map Property.id (properties db)))
                         number notes in
  (row, mkSession (properties db ++ [row]) (logs db)).

(** The same for [Log(propertyId=..., timestamp=..., description=...)];
    the timestamp is stored without offset.  (The insert of a
    [propertyId] the driver does not bind is told by [bound], below.) *)
Definition add_log (propertyId : Z) (timestamp : datetime)
           (description : string) (db : Session) : Log.t * Session :=
  let row := Log.mk propertyId (next_rowid (map Log.id (logs db)))
                    (bind_datetime timestamp) description in
  (row, mkSession (properties db) (logs db ++ [row])).

(** [db.delete(row)]: [DELETE FROM ... WHERE id = <the row's id>]. *)
Definition delete_log (db : Session) (row : Log.t) : Session :=
  mkSession (properties db)
            (filter (fun l => negb (Log.id l =? Log.id row)) (logs db)).

Definition delete_property_row (db : Session) (row : Property.t) : Session :=
  mkSession (filter (fun p => negb (Property.id p =? Property.id row))
                    (properties db))
            (logs db).

(** *** The order of the index on the number

    A query of the id and the number alone is answered from the index on
    the number, which holds both: the rows come by number, in the order
    of the bytes, and by id within one number. *)
Definition index_leb (a b : Z * string) : bool :=
  match String.compare (snd a) (snd b) with
  | Lt => true
  | Eq => fst a <=? fst b
  | Gt => false
  end.

Fixpoint index_insert (x : Z * string) (l : list (Z * string))
  : list (Z * string) :=
  match l with
  | [] => [x]
  | y :: rest => if index_leb x y then x :: l else y :: index_insert x rest
  end.

Definition index_scan (l : list (Z * string)) : list (Z * string) :=
  fold_right index_insert [] l.

(** *** The integers the driver binds

    A Python integer given to a statement has to fit in the signed 64
    bits of an SQLite INTEGER; otherwise the driver raises
    [OverflowError] when the statement is executed, and nothing is
    written. *)
Definition in_int64 (v : Z) : bool :=
  (- 2 ^ 63 <=? v) && (v <? 2 ^ 63).

(** The handlers do not catch the [OverflowError]; the framework answers
    an exception that is no [HTTPException] with status 500. *)
Definition overflow_error : Http.HTTPException :=
  Http.mkHTTPException 500 "Internal Server Error".

(** [bound v r]: the outcome of a statement that binds the integer [v],
    [r] being its outcome when the driver takes [v]. *)
Definition bound {A : Type} (v : Z) (r : Http.result A) : Http.result A :=
  if in_int64 v then r else Http.Raise overflow_error.

End Db.

(* ================================================================= *)
(** ** The handlers of [src/server/server.py]

    Each handler as its body reads, on a store of integers; the range of
    the integers the driver binds is added in [Endpoint]. *)

Module Server.
Import PyDatetime Http Db.

(** [if s:] on an optional string: the string when it is given and not
    empty. *)
Definition truthy (s : option string) : option string :=
  match s with
  | Some v => if (v =? "")%string then None else Some v
  | None => None
  end.

Definition is_truthy (s : option string) : bool :=
  match truthy s with Some _ => true | None => false end.

(** [validateDateTime]: a parsed datetime is always true, so the final
    [return None] of the [try] block is never reached; [None] is the
    [except ValueError] branch. *)
Definition validateDateTime (dateTimeString : string) (defaultTime : time)
  : option datetime :=
  match fromisoformat dateTimeString with
  | Some parsedDateTime =>
      let parsedTime := datetime_time parsedDateTime in
      Some (if time_eqb parsedTime time_min
            then combine parsedDateTime defaultTime
            else parsedDateTime)
  | None => None
  end.

(** *** Property endpoints *)

Definition create_property (number notes : string) (db : Session)
  : result (Property.t * Session) :=
  Return (add_property number notes db).

Definition get_all_properties (db : Session) : result (list Property.t) :=
  Return (map (fun p => Property.mk (Property.id p) (Property.number p)
                                    (Property.notes p))
              (properties db)).

Definition not_found (msg : string) : HTTPException :=
  mkHTTPException 404 msg.

Definition bad_request (msg : string) : HTTPException :=
  mkHTTPException 400 msg.

Definition get_property (property_id : Z) (db : Session)
  : result Property.t :=
  match first (all_properties_by_id property_id db) with
  | None => Raise (not_found "Property not found.")
  | Some property_ => Return property_
  end.

Definition update_property (property_id : Z) (number notes : string)
           (db : Session) : result (Property.t * Session) :=
  match first (all_properties_by_id property_id db) with
  | None => Raise (not_found "Property not found.")
  | Some property_ =>
      let updated := Property.mk (Property.id property_) number notes in
      Return (updated,
              mkSession
                (map (fun p => if Property.id p =? Property.id property_
                               then updated else p)
                     (properties db))
                (logs db))
  end.

Definition delete_property (property_id : Z) (db : Session)
  : result (json * Session) :=
  match first (all_properties_by_id property_id db) with
  | None => Raise (not_found "Property not found.")
  | Some property_ =>
      let logs_ := all_logs (filter_ [] (Log_propertyId_eq property_id)) db in
      let db := fold_left delete_log logs_ db in
      let db := delete_property_row db property_ in
      Return ([("message", "Property and associated logs deleted.")], db)
  end.

(** *** Event endpoints *)

(** Lines 177 to 197 of [get_property_events]: the query, or the 400. *)
Definition events_query (property_id : Z) (start_date end_date : option string)
  : result log_query :=
  let query := filter_ [] (Log_propertyId_eq property_id) in
  query <-
    match truthy start_date with
    | Some start_date =>
        match validateDateTime start_date time_min with
        | Some parsed_start =>
            Return (filter_ query (Log_timestamp_ge parsed_start))
        | None =>
            Raise (bad_request
              "Unable to parse start_date. Use YYYY-MM-DD or YYYY-MM-DDTHH:MM:SS")
        end
    | None => Return query
    end ;;
  match truthy end_date with
  | Some end_date =>
      match validateDateTime end_date time_max with
      | Some parsed_end =>
          Return (filter_ query (Log_timestamp_ge parsed_end))
      | None =>
          Raise (bad_request
            "Unable to parse end_date. Use YYYY-MM-DD or YYYY-MM-DDTHH:MM:SS")
      end
  | None => Return query
  end.

Definition get_property_events (property_id : Z)
           (start_date end_date : option string) (db : Session)
  : result (list Log.t) :=
  query <- events_query property_id start_date end_date ;;
  let logs_ := all_logs query db in
  match logs_ with
  | [] =>
      let error_detail :=
        if is_truthy start_date || is_truthy end_date
        then "No events found for this property in the given range."
        else "No events found for this property." in
      Raise (not_found error_detail)
  | _ =>
      Return (map (fun log => Log.mk (Log.propertyId log) (Log.id log)
                                     (Log.timestamp log)
                                     (Log.description log))
                  logs_)
  end.

(** [now] is the value of [datetime.now()] at the call. *)
Definition create_event (property_id : Z) (description : string)
           (timestamp : option string) (now : datetime) (db : Session)
  : result (Log.t * Session) :=
  parsed_timestamp <-
    match truthy timestamp with
    | Some timestamp =>
        match validateDateTime timestamp time_min with
        | Some parsed_timestamp => Return parsed_timestamp
        | None =>
            Raise (bad_request
              "Unable to parse timestamp. Use YYYY-MM-DD or YYYY-MM-DDTHH:MM:SS")
        end
    | None => Return now
    end ;;
  Return (add_log property_id parsed_timestamp description db).

Definition get_event (property_id event_id : Z) (db : Session)
  : result Log.t :=
  let log :=
    first (all_logs
             (filter_ [] (py_and (Log_propertyId_eq property_id)
                                 (Log_id_eq event_id)))
             db) in
  match log with
  | None => Raise (not_found "Log not found.")
  | Some log => Return log
  end.

(** The row [delete_event] fetches is a row of [properties]
    ([db.query(Property)]), and that is the row it deletes. *)
Definition delete_event (property_id event_id : Z) (db : Session)
  : result (json * Session) :=
  let log :=
    first (all_properties_where_log
             (py_and (Log_propertyId_eq property_id) (Log_id_eq event_id))
             db) in
  match log with
  | None => Raise (not_found "Event not found")
  | Some log =>
      Return ([("message", "Event deleted")], delete_property_row db log)
  end.

End Server.

(* ================================================================= *)
(** ** The handlers of [src/server.py]

    The earlier variant names the columns [PropertyId], [Number], [Notes],
    [EventId], [Timestamp] and [Description]; they are the fields [id],
    [number], [notes] of [Property.t] and [propertyId], [id], [timestamp],
    [description] of [Log.t]. *)

Module Legacy.
Import PyDatetime Http Db.

Definition create_property (number notes : string) (db : Session)
  : result (Property.t * Session) :=
  Return (add_property number notes db).

Definition get_property (property_id : Z) (db : Session)
  : result Property.t :=
  match first (all_properties_by_id property_id db) with
  | None => Raise (Server.not_found "Property not found.")
  | Some property_ => Return property_
  end.

Definition delete_property (property_id : Z) (db : Session)
  : result (json * Session) :=
  match first (all_properties_by_id property_id db) with
  | None => Raise (Server.not_found "Property not found.")
  | Some property_ =>
      let logs_ := all_logs (filter_ [] (Log_propertyId_eq property_id)) db in
      let db := fold_left delete_log logs_ db in
      let db := delete_property_row db property_ in
      Return ([("message", "Property and associated logs deleted.")], db)
  end.

Definition get_events_for_property (property_id : Z) (db : Session)
  : result (list Log.t) :=
  let logs_ := all_logs (filter_ [] (Log_propertyId_eq property_id)) db in
  match logs_ with
  | [] => Raise (Server.not_found "No events found for this property.")
  | _ =>
      Return (map (fun log => Log.mk (Log.propertyId log) (Log.id log)
                                     (Log.timestamp log)
                                     (Log.description log))
                  logs_)
  end.

(** [Timestamp] is left to the column default, [func.now()]: [now] is
    what [CURRENT_TIMESTAMP] is in the store at the insert, the UTC time
    to the second (and not the [datetime.now()] of the later variant). *)
Definition create_event (property_id : Z) (description : string)
           (now : datetime) (db : Session) : result (Log.t * Session) :=
  Return (add_log property_id now description db).

Definition get_log (property_id event_id : Z) (db : Session)
  : result Log.t :=
  let log :=
    first (all_logs
             (filter_ [] (py_and (Log_propertyId_eq property_id)
                                 (Log_id_eq event_id)))
             db) in
  match log with
  | None => Raise (Server.not_found "Log not found.")
  | Some log => Return log
  end.

Definition delete_event (property_id event_id : Z) (db : Session)
  : result (json * Session) :=
  let log :=
    first (all_properties_where_log
             (py_and (Log_propertyId_eq property_id) (Log_id_eq event_id))
             db) in
  match log with
  | None => Raise (Server.not_found "Event not found")
  | Some log =>
      Return ([("message", "Event deleted")], delete_property_row db log)
  end.

(** [get_all_properties] queries [PropertyId] and [Number] only and
    answers a [Property] built from these two, [Notes] not set: the pair
    of the id and the number.  The two columns are read from the index
    on [Number], in its order. *)
Definition get_all_properties (db : Session) : result (list (Z * string)) :=
  Return (index_scan
            (map (fun p => (Property.id p, Property.number p))
                 (properties db))).


End Legacy.

(* ================================================================= *)
(** ** The handlers on the SQLite driver

    The handlers above take any integer for [property_id].  The driver
    binds it only when it fits in 64 bits ([Db.bound]), at the statement
    that carries it: the first query of a handler, or the insert of
    [create_event]; a 400 for a date is raised before that statement.
    [event_id] is bound nowhere, the condition on it being dropped by
    [and]. *)

Module Endpoint.
Import PyDatetime Http Db.

Definition get_property (property_id : Z) (db : Session)
  : result Property.t :=
  bound property_id (Server.get_property property_id db).

Definition update_property (property_id : Z) (number notes : string)
           (db : Session) : result (Property.t * Session) :=
  bound property_id (Server.update_property property_id number notes db).

Definition delete_property (property_id : Z) (db : Session)
  : result (json * Session) :=
  bound property_id (Server.delete_property property_id db).

Definition get_property_events (property_id : Z)
           (start_date end_date : option string) (db : Session)
  : result (list Log.t) :=
  match Server.events_query property_id start_date end_date with
  | Raise e => Raise e
  | Return _ =>
      bound property_id
            (Server.get_property_events property_id start_date end_date db)
  end.

Definition create_event (property_id : Z) (description : string)
           (timestamp : option string) (now : datetime) (db : Session)
  : result (Log.t * Session) :=
  match Server.create_event property_id description timestamp now db with
  | Raise e => Raise e
  | Return inserted => bound property_id (Return inserted)
  end.

Definition get_event (property_id event_id : Z) (db : Session)
  : result Log.t :=
  bound property_id (Server.get_event property_id event_id db).

Definition delete_event (property_id event_id : Z) (db : Session)
  : result (json * Session) :=
  bound property_id (Server.delete_event property_id event_id db).

End Endpoint.

Module LegacyEndpoint.
Import PyDatetime Http Db.

Definition create_event (property_id : Z) (description : string)
           (now : datetime) (db : Session) : result (Log.t * Session) :=
  bound property_id (Legacy.create_event property_id description now db).

End LegacyEndpoint.

(* ================================================================= *)
(** ** [src/server/server.py] run as a script *)

Module Main.
Import PyDatetime.

(** What [os.getenv(key, default)] answers: the text of the variable, or
    the default, which the script gives as text for [HOST] and as an
    integer for [PORT]. *)
Inductive value : Type :=
| Str (s : string)
| Int (n : Z).

(** The environment: the text of a variable that is set. *)
Definition environ : Type := string -> option string.

Definition getenv (env : environ) (key : string) (default : value) : value :=
  match env key with
  | Some s => Str s
  | None => default
  end.

(** White space [int] strips, in ASCII: the space and 9 to 13. *)
Definition is_space (c : ascii) : bool :=
  let n := Z.of_nat (nat_of_ascii c) in
  in_range 9 n 13 || (n =? 32).

Fixpoint lstrip (s : list ascii) : list ascii :=
  match s with
  | c :: rest => if is_space c then lstrip rest else s
  | [] => []
  end.

Definition strip (s : list ascii) : list ascii :=
  rev (lstrip (rev (lstrip s))).

(** Decimal digits, single underscores allowed between two digits;
    [after_digit] tells that the character before was a digit. *)
Fixpoint int_digits (acc : Z) (after_digit : bool) (s : list ascii)
  : option Z :=
  match s with
  | [] => if after_digit then Some acc else None
  | c :: rest =>
      if is_char "_" c
      then (if after_digit then int_digits acc false rest else None)
      else match digit_val c with
           | Some v => int_digits (10 * acc + v) true rest
           | None => None
           end
  end.

(** [int(text)] in base ten, on ASCII text; [None] is [ValueError]. *)
Definition int_of_text (text : string) : option Z :=
  match strip (list_ascii_of_string text) with
  | [] => None
  | c :: rest =>
      if is_char "+" c then int_digits 0 false rest
      else if is_char "-" c then option_map Z.opp (int_digits 0 false rest)
      else int_digits 0 false (c :: rest)
  end.

(** [int(v)]. *)
Definition int_ (v : value) : option Z :=
  match v with
  | Int n => Some n
  | Str s => int_of_text s
  end.

(** How the script ends: with the [ValueError] of an [int(...)], or in
    [uvicorn.run("server:app", host=host, port=port, reload=True)]. *)
Inductive startup : Type :=
| ValueError
| Run (host port : Z).

Definition main (env : environ) : startup :=
  match int_ (getenv env "HOST" (Str "0.0.0.0")) with
  | None => ValueError
  | Some host =>
      match int_ (getenv env "PORT" (Int 8100)) with
      | None => ValueError
      | Some port => Run host port
      end
  end.

End Main.

(* ================================================================= *)
(** ** Primary keys *)

Module Keys.
Import Db.

(** In each table the ids grow strictly along the scan; in particular no
    two rows of a table share an id. *)
Definition keys_ok (db : Session) : Prop :=
  StronglySorted Z.lt (map Property.id (properties db))
  /\ StronglySorted Z.lt (map Log.id (logs db)).

End Keys.

(* ================================================================= *)
(** ** The stores of the examples *)

Module Scenario.
Import PyDatetime Http Db.

(** A reading of the clock. *)
Definition clock : datetime := mkDatetime 2024 6 1 9 30 0 0 None.

Definition empty : Session := mkSession [] [].

Definition unit_101 : Property.t := Property.mk 1 "101" "corner unit".
Definition unit_102 : Property.t := Property.mk 2 "102" "".

(** Property 1, and one event on it at noon of 2024-03-01. *)
Definition inspection : Log.t :=
  Log.mk 1 1 (mkDatetime 2024 3 1 12 0 0 0 None) "inspection".

Definition one_event : Session := mkSession [unit_101] [inspection].

(** Property 1 with two events. *)
Definition repair : Log.t :=
  Log.mk 1 2 (mkDatetime 2024 3 5 8 0 0 0 None) "repair".

Definition two_events : Session :=
  mkSession [unit_101] [inspection; repair].

(** Two properties; the only event belongs to the second one. *)
Definition viewing : Log.t :=
  Log.mk 2 1 (mkDatetime 2024 4 2 15 0 0 0 None) "viewing".

Definition two_properties : Session :=
  mkSession [unit_101; unit_102] [viewing].

End Scenario.

Import PyDatetime Http Db.

(* ================================================================= *)
(** ** Lemmas on the store *)

Section StoreLemmas.

Lemma fold_max_upper (x : Z) (l : list Z) (y : Z) :
  In y (x :: l) -> y <= fold_right Z.max x l.
Proof.
  induction l as [|z l IH]; simpl.
  - intros [->|[]]; lia.
  - intros [->|[->|Hy]].
    + assert (y <= fold_right Z.max y l) by (apply IH; now left). lia.
    + lia.
    + assert (y <= fold_right Z.max x l) by (apply IH; now right). lia.
Qed.

(** A new row id is above every id in use. *)
Lemma next_rowid_fresh (ids : list Z) (x : Z) :
  In x ids -> x < next_rowid ids.
Proof.
  destruct ids as [|y l]; [intros []|].
  intros Hx. unfold next_rowid.
  pose proof (fold_max_upper y l x Hx). lia.
Qed.

Lemma filter_nil_iff {A : Type} (f : A -> bool) (l : list A) :
  filter f l = [] <-> (forall x, In x l -> f x = false).
Proof.
  induction l as [|a l IH]; simpl.
  - split; [intros _ x []|reflexivity].
  - destruct (f a) eqn:Fa; split.
    + discriminate.
    + intros H. specialize (H a (or_introl eq_refl)). congruence.
    + intros H x [->|Hx]; [assumption|]. now apply IH.
    + intros H. apply IH. intros x Hx. apply H. now right.
Qed.

(** The copy a listing makes of each row is the row. *)
Lemma log_copy_id (l : list Log.t) :
  map (fun log => Log.mk (Log.propertyId log) (Log.id log)
                         (Log.timestamp log) (Log.description log)) l = l.
Proof.
  induction l as [|[pid i ts d] l IH]; simpl; [reflexivity|].
  now rewrite IH.
Qed.

(** The loop of [delete_property] leaves the properties alone and keeps
    the logs whose id is the id of none of the rows it was given. *)
Lemma fold_delete_log (rows : list Log.t) (db : Session) :
  properties (fold_left delete_log rows db) = properties db
  /\ logs (fold_left delete_log rows db)
     = filter (fun l => negb (existsb (fun r => Log.id l =? Log.id r) rows))
              (logs db).
Proof.
  revert db. induction rows as [|r rows IH]; intros db; simpl.
  - split; [reflexivity|].
    induction (logs db) as [|l ls IHl]; simpl; [reflexivity|].
    now rewrite <- IHl.
  - destruct (IH (delete_log db r)) as [Hp Hl]. split.
    + rewrite Hp. reflexivity.
    + rewrite Hl. simpl.
      induction (logs db) as [|l ls IHl]; simpl; [reflexivity|].
      destruct (Log.id l =? Log.id r); simpl.
      * exact IHl.
      * destruct (existsb _ rows); simpl; [exact IHl|now rewrite IHl].
Qed.

(** A query that starts with the condition on [propertyId] finds nothing
    in a store that has no event of that property. *)
Lemma all_logs_no_event (property_id : Z) (rest : log_query) (db : Session) :
  (forall l, In l (logs db) -> Log.propertyId l <> property_id) ->
  all_logs (Log_propertyId_eq property_id :: rest) db = [].
Proof.
  intros H. unfold all_logs. apply filter_nil_iff. intros l Hl. simpl.
  destruct (Z.eqb_spec (Log.propertyId l) property_id) as [E|_].
  - now destruct (H l Hl).
  - reflexivity.
Qed.

(** Every query [events_query] builds starts with that condition. *)
Lemma events_query_head (property_id : Z) (start_date end_date : option string)
      (q : log_query) :
  Server.events_query property_id start_date end_date = Return q ->
  exists rest, q = Log_propertyId_eq property_id :: rest.
Proof.
  unfold Server.events_query, filter_. simpl.
  destruct (Server.truthy start_date) as [s|];
    [destruct (Server.validateDateTime s time_min)|]; simpl;
    try discriminate;
    (destruct (Server.truthy end_date) as [e|];
      [destruct (Server.validateDateTime e time_max)|]; simpl;
      try discriminate);
    intros [= <-]; eexists; reflexivity.
Qed.

(** [events_query] raises nothing but a 400. *)
Lemma events_query_raises (property_id : Z)
      (start_date end_date : option string) (e : HTTPException) :
  Server.events_query property_id start_date end_date = Raise e ->
  status_code e = 400.
Proof.
  unfold Server.events_query, filter_. simpl.
  destruct (Server.truthy start_date) as [s|];
    [destruct (Server.validateDateTime s time_min)|]; simpl;
    try (intros [= <-]; reflexivity);
    (destruct (Server.truthy end_date) as [x|];
      [destruct (Server.validateDateTime x time_max)|]; simpl;
      try discriminate);
    intros [= <-]; reflexivity.
Qed.

End StoreLemmas.

(* ================================================================= *)
(** ** Lemmas on the parser *)

Section ParserLemmas.

Lemma parse_digits_length (n : nat) :
  forall (acc : Z) (s : list ascii) (v : Z) (rest : list ascii),
    parse_digits n acc s = Some (v, rest) ->
    List.length s = (n + List.length rest)%nat.
Proof.
  induction n as [|n IH]; intros acc s v rest; simpl.
  - intros [= _ ->]. reflexivity.
  - destruct s as [|c s]; [discriminate|].
    destruct (digit_val c); [|discriminate].
    intros H. apply IH in H. simpl. now rewrite H.
Qed.

Lemma list_ascii_length (s : string) :
  List.length (list_ascii_of_string s) = String.length s.
Proof.
  induction s as [|c s IH]; simpl; [reflexivity|now rewrite IH].
Qed.

(** A digit is no [W]. *)
Lemma digit_is_not_W (c : ascii) :
  is_digit c = true -> is_char "W" c = false.
Proof.
  destruct c as [[] [] [] [] [] [] [] []]; intros H;
    try reflexivity; discriminate H.
Qed.

(** In the date-only form the separator would be the eleventh byte. *)
Lemma date_only_separator (s : string) :
  is_date_only s = true ->
  List.length (list_ascii_of_string s) = 10%nat
  /\ find_isoformat_datetime_separator (list_ascii_of_string s)
     = Some 10%nat.
Proof.
  unfold is_date_only.
  destruct (list_ascii_of_string s)
    as [|y1 [|y2 [|y3 [|y4 [|d1 [|m1 [|m2 [|d2 [|a1 [|a2 [|x l]]]]]]]]]]];
    try discriminate.
  rewrite !andb_true_iff.
  intros [[[[[[[[[_ _] _] _] D1] M1] _] _] _] _].
  split; [reflexivity|].
  unfold find_isoformat_datetime_separator, byte_at.
  cbn -[is_char is_digit].
  rewrite D1, (digit_is_not_W m1 M1). reflexivity.
Qed.

(** What the parser reads from the date-only form is naive and at
    00:00:00.000000. *)
Lemma date_only_is_midnight (s : string) (d : datetime) :
  is_date_only s = true ->
  fromisoformat s = Some d ->
  datetime_time d = time_min /\ tzinfo d = None.
Proof.
  intros D. destruct (date_only_separator s D) as [L F].
  unfold fromisoformat. rewrite L, F. cbn [Nat.ltb Nat.leb].
  destruct (parse_isoformat_date (list_ascii_of_string s) 10)
    as [[[y mo] dd]|]; [|discriminate].
  destruct (valid_fields y mo dd 0 0 0 0); [|discriminate].
  intros [= <-]. split; reflexivity.
Qed.

(** A datetime the parser returns passed the checks of the constructor. *)
Lemma fromisoformat_valid (s : string) (d : datetime) :
  fromisoformat s = Some d ->
  valid_fields (year d) (month d) (day d)
               (hour d) (minute d) (second d) (microsecond d) = true.
Proof.
  unfold fromisoformat.
  destruct (List.length (list_ascii_of_string s) <? 7)%nat; [discriminate|].
  destruct (find_isoformat_datetime_separator (list_ascii_of_string s))
    as [loc|]; [|discriminate].
  destruct (parse_isoformat_date (list_ascii_of_string s) loc)
    as [[[y mo] dd]|]; [|discriminate].
  destruct (loc <? List.length (list_ascii_of_string s))%nat.
  - destruct (parse_isoformat_time _) as [[[[[h mi] sec] us] tz]|];
      [|discriminate].
    destruct (valid_fields y mo dd h mi sec us) eqn:V; [|discriminate].
    intros [= <-]. exact V.
  - destruct (valid_fields y mo dd 0 0 0 0) eqn:V; [|discriminate].
    intros [= <-]. exact V.
Qed.

End ParserLemmas.

(* ================================================================= *)
(** ** The stores of the examples are stores the handlers produce *)

Lemma scenario_stores_reachable :
  Server.create_property "101" "corner unit" Scenario.empty
  = Return (Scenario.unit_101, mkSession [Scenario.unit_101] [])
  /\ Server.create_event 1 "inspection" (Some "2024-03-01T12:00:00")
       Scenario.clock (mkSession [Scenario.unit_101] [])
     = Return (Scenario.inspection, Scenario.one_event)
  /\ Server.create_event 1 "repair" (Some "2024-03-05T08:00:00")
       Scenario.clock Scenario.one_event
     = Return (Scenario.repair, Scenario.two_events)
  /\ Server.create_property "102" "" (mkSession [Scenario.unit_101] [])
     = Return (Scenario.unit_102,
               mkSession [Scenario.unit_101; Scenario.unit_102] [])
  /\ Server.create_event 2 "viewing" (Some "2024-04-02T15:00:00")
       Scenario.clock (mkSession [Scenario.unit_101; Scenario.unit_102] [])
     = Return (Scenario.viewing, Scenario.two_properties).
Proof.
  repeat split; vm_compute; reflexivity.
Qed.

(* ================================================================= *)
(** ** Properties: create, fetch, delete *)

(** C9: for every number and notes and every store, [create_property]
    returns a record, and [get_property] at the id of that record, in the
    store creation leaves, returns a record with that number and those
    notes (the very record). *)
Theorem create_property_then_get (number notes : string) (db : Session) :
  exists (property_ : Property.t) (db' : Session),
    Server.create_property number notes db = Return (property_, db')
    /\ Server.get_property (Property.id property_) db' = Return property_
    /\ Property.number property_ = number
    /\ Property.notes property_ = notes.
Proof.
  unfold Server.create_property, add_property.
  eexists; eexists; split; [reflexivity|].
  split; [|split; reflexivity].
  unfold Server.get_property, all_properties_by_id; simpl.
  rewrite filter_app; simpl. rewrite Z.eqb_refl.
  set (ids := map Property.id (properties db)).
  assert (E : filter (fun p => Property.id p =? next_rowid ids) (properties db)
              = []).
  { apply filter_nil_iff. intros p Hp. apply Z.eqb_neq.
    assert (Property.id p < next_rowid ids)
      by (apply next_rowid_fresh; unfold ids; now apply in_map).
    lia. }
  rewrite E. reflexivity.
Qed.

(** C4: when [delete_property] succeeds, in the store it leaves: fetching
    the property is a 404; fetching an event under the property is a 404,
    whatever the event id; listing the events of the property raises, a
    404 unless a date parameter is refused first (a 400), and a 404 with
    no date parameter; no event of the property is in [logs] and no
    property of that id in [properties].  One call, one new store: the
    events and the property go together. *)
Theorem delete_property_cascades
        (property_id : Z) (db db' : Session) (answer : json) :
  Server.delete_property property_id db = Return (answer, db') ->
  Server.get_property property_id db'
    = Raise (Server.not_found "Property not found.")
  /\ (forall event_id,
        Server.get_event property_id event_id db'
        = Raise (Server.not_found "Log not found."))
  /\ (forall start_date end_date,
        exists e,
          Server.get_property_events property_id start_date end_date db'
          = Raise e
          /\ (status_code e = 404
              \/ (status_code e = 400
                  /\ Server.events_query property_id start_date end_date
                     = Raise e)))
  /\ Server.get_property_events property_id None None db'
     = Raise (Server.not_found "No events found for this property.")
  /\ (forall l, In l (logs db') -> Log.propertyId l <> property_id)
  /\ (forall p, In p (properties db') -> Property.id p <> property_id).
Proof.
  unfold Server.delete_property.
  destruct (first (all_properties_by_id property_id db)) as [property_|] eqn:F;
    [|discriminate].
  intros [= _ <-].
  (* the property found has the id asked for *)
  assert (Hid : Property.id property_ = property_id).
  { unfold first, all_properties_by_id in F.
    assert (In property_
              (filter (fun p => Property.id p =? property_id) (properties db))).
    { destruct (filter _ (properties db)); [discriminate|].
      injection F as ->. now left. }
    apply filter_In in H. now apply Z.eqb_eq. }
  set (rows := all_logs (filter_ [] (Log_propertyId_eq property_id)) db).
  destruct (fold_delete_log rows db) as [Hp Hl].
  (* no event of the property is left *)
  assert (Hlogs : forall l,
             In l (logs (delete_property_row (fold_left delete_log rows db)
                                             property_)) ->
             Log.propertyId l <> property_id).
  { simpl. rewrite Hl. intros l Hin E.
    apply filter_In in Hin as [Hin Hkeep].
    assert (Hrow : In l rows).
    { unfold rows, all_logs, filter_. simpl. apply filter_In. split; [exact Hin|].
      simpl. rewrite E, Z.eqb_refl. reflexivity. }
    assert (X : existsb (fun r => Log.id l =? Log.id r) rows = true).
    { apply existsb_exists. exists l. split; [exact Hrow|apply Z.eqb_refl]. }
    rewrite X in Hkeep. discriminate. }
  (* no property of that id is left *)
  assert (Hprops : forall p,
             In p (properties (delete_property_row
                                 (fold_left delete_log rows db) property_)) ->
             Property.id p <> property_id).
  { simpl. rewrite Hp. intros p Hin E.
    apply filter_In in Hin as [_ Hkeep].
    rewrite Hid, E, Z.eqb_refl in Hkeep. discriminate. }
  set (db' := delete_property_row (fold_left delete_log rows db) property_) in *.
  assert (Hnone : forall rest,
             all_logs (Log_propertyId_eq property_id :: rest) db' = [])
    by (intros rest; now apply all_logs_no_event).
  split; [|split; [|split; [|split; [|split]]]].
  - unfold Server.get_property, all_properties_by_id.
    assert (E : filter (fun p => Property.id p =? property_id) (properties db')
                = []).
    { apply filter_nil_iff. intros p Hin. apply Z.eqb_neq. now apply Hprops. }
    rewrite E. reflexivity.
  - intros event_id. unfold Server.get_event, py_and, criterion_bool, filter_.
    simpl. rewrite Hnone. reflexivity.
  - intros start_date end_date. unfold Server.get_property_events.
    destruct (Server.events_query property_id start_date end_date)
      as [q|e] eqn:Q; simpl.
    + destruct (events_query_head _ _ _ _ Q) as [rest ->].
      rewrite Hnone. eexists. split; [reflexivity|]. left. reflexivity.
    + exists e. split; [reflexivity|]. right. split; [|reflexivity].
      now apply events_query_raises in Q.
  - unfold Server.get_property_events, Server.events_query, filter_. simpl.
    rewrite Hnone. reflexivity.
  - exact Hlogs.
  - exact Hprops.
Qed.

(** Witness of C4: deleting property 1 of the store that holds it and one
    event of it. *)
Lemma delete_property_cascades_witness :
  Server.delete_property 1 Scenario.one_event
  = Return ([("message", "Property and associated logs deleted.")],
            Scenario.empty)
  /\ Server.get_property 1 Scenario.empty
     = Raise (Server.not_found "Property not found.").
Proof.
  split; [vm_compute; reflexivity|].
  refine (proj1 (delete_property_cascades 1 Scenario.one_event Scenario.empty
                   [("message", "Property and associated logs deleted.")] _)).
  vm_compute. reflexivity.
Defined.

(** [delete_property] succeeds exactly when a property has the id. *)
Lemma delete_property_succeeds_iff (property_id : Z) (db : Session) :
  (exists p, In p (properties db) /\ Property.id p = property_id)
  <-> exists answer db',
        Server.delete_property property_id db = Return (answer, db').
Proof.
  unfold Server.delete_property, first, all_properties_by_id. split.
  - intros (p & Hin & E).
    destruct (filter _ (properties db)) as [|q l] eqn:F; simpl.
    + assert (X : (Property.id p =? property_id) = false).
      { apply (proj1 (filter_nil_iff _ _) F p Hin). }
      rewrite E, Z.eqb_refl in X. discriminate.
    + eexists; eexists; reflexivity.
  - destruct (filter _ (properties db)) as [|q l] eqn:F; simpl.
    + intros (? & ? & [=]).
    + intros _. exists q.
      assert (In q (filter (fun p => Property.id p =? property_id)
                           (properties db))) by (rewrite F; now left).
      apply filter_In in H as [Hin E]. split; [exact Hin|now apply Z.eqb_eq].
Qed.

(* ================================================================= *)
(** ** Events: create and list *)

(** C8, as stated, fails outside the integers of the store: at the
    property id 2^63 the insert raises in the driver and no event is
    inserted or returned; in the earlier variant too. *)
Lemma create_event_overflows_on_large_id :
  in_int64 9223372036854775808 = false
  /\ Endpoint.create_event 9223372036854775808 "inspection" None
       Scenario.clock Scenario.empty
     = Raise overflow_error
  /\ LegacyEndpoint.create_event 9223372036854775808 "inspection"
       Scenario.clock Scenario.empty
     = Raise overflow_error.
Proof.
  repeat split; vm_compute; reflexivity.
Qed.

(** C8, amended: [create_event] never looks at [properties] and never
    raises a 404.  For every property id, store, description and clock it
    ends in one of three ways: it returns the new event, stored last in
    [logs] under that property id, with [properties] untouched, and the
    id is one the store can hold; or it raises the 400 of a timestamp
    that is given, not empty and refused by the parser; or it raises the
    error of the driver, the id being outside the signed 64 bits.  For an
    id the store can hold, without timestamp, it always returns the
    event, in the earlier variant too.  Property 42 of the empty store is
    one such id that matches no property. *)
Theorem create_event_skips_property_check
        (property_id : Z) (description : string) (now : datetime)
        (db : Session) :
  (forall timestamp,
      match Endpoint.create_event property_id description timestamp now db
      with
      | Return (log, db') =>
          in_int64 property_id = true
          /\ Log.propertyId log = property_id
          /\ Log.description log = description
          /\ logs db' = logs db ++ [log]
          /\ properties db' = properties db
      | Raise e =>
          (status_code e = 400
           /\ exists s, Server.truthy timestamp = Some s
                        /\ fromisoformat s = None)
          \/ (e = overflow_error /\ in_int64 property_id = false)
      end)
  /\ (in_int64 property_id = true ->
      Endpoint.create_event property_id description None now db
      = Return (add_log property_id now description db)
      /\ LegacyEndpoint.create_event property_id description now db
         = Return (add_log property_id now description db))
  /\ Endpoint.create_event 42 description None now Scenario.empty
     = Return (Log.mk 42 1 (bind_datetime now) description,
               mkSession [] [Log.mk 42 1 (bind_datetime now) description]).
Proof.
  split; [|split]; [| |reflexivity].
  - intros timestamp. unfold Endpoint.create_event, Server.create_event.
    destruct (Server.truthy timestamp) as [s|] eqn:T; cbn [bind].
    + unfold Server.validateDateTime.
      destruct (fromisoformat s) as [d|] eqn:P; cbn [bind].
      * unfold bound. destruct (in_int64 property_id).
        -- repeat split; reflexivity.
        -- right. split; reflexivity.
      * left. split; [reflexivity|]. exists s. split; [reflexivity|exact P].
    + unfold bound. destruct (in_int64 property_id).
      * repeat split; reflexivity.
      * right. split; reflexivity.
  - intros R. unfold Endpoint.create_event, LegacyEndpoint.create_event,
      Server.create_event, Legacy.create_event, bound. cbn [Server.truthy bind].
    rewrite R. split; reflexivity.
Qed.

(** Witness of C8: property 42, which the empty store does not hold. *)
Lemma create_event_skips_property_check_witness :
  in_int64 42 = true
  /\ Endpoint.create_event 42 "inspection" None Scenario.clock Scenario.empty
     = Return (add_log 42 Scenario.clock "inspection" Scenario.empty).
Proof.
  split; [reflexivity|].
  exact (proj1 (proj1 (proj2 (create_event_skips_property_check
                                42 "inspection" Scenario.clock Scenario.empty))
                      eq_refl)).
Defined.



(** The earlier variant has no date parameters: its listing raises the 404
    exactly when the property has no event in [logs]. *)
Lemma legacy_listing_not_found_iff_empty (property_id : Z) (db : Session) :
  (all_logs [Log_propertyId_eq property_id] db = []
   <-> Legacy.get_events_for_property property_id db
       = Raise (Server.not_found "No events found for this property."))
  /\ (all_logs [Log_propertyId_eq property_id] db <> [] ->
      Legacy.get_events_for_property property_id db
      = Return (all_logs [Log_propertyId_eq property_id] db)).
Proof.
  unfold Legacy.get_events_for_property, filter_. simpl.
  destruct (all_logs [Log_propertyId_eq property_id] db) as [|l ls] eqn:A.
  - split; [split; reflexivity|intros H; now destruct H].
  - split; [split; discriminate|].
    intros _. f_equal. apply (log_copy_id (l :: ls)).
Qed.

(* ================================================================= *)
(** ** Date parameters *)

Section DateParameters.

(** The parser refuses the empty string, so a string it accepts is one
    [if s:] lets through. *)
Lemma parsed_is_truthy (s : string) (d : datetime) :
  fromisoformat s = Some d -> Server.truthy (Some s) = Some s.
Proof.
  intros P. simpl. destruct (String.eqb_spec s "") as [->|_].
  - vm_compute in P. discriminate.
  - reflexivity.
Qed.

Lemma nonempty_is_truthy (s : string) :
  s <> "" -> Server.truthy (Some s) = Some s.
Proof.
  intros N. simpl. destruct (String.eqb_spec s "") as [E|_].
  - now destruct N.
  - reflexivity.
Qed.

(** The listing depends on a start string through its parsed value. *)
Lemma listing_start_congruence
      (property_id : Z) (s s' : string) (end_date : option string)
      (db : Session) :
  Server.truthy (Some s) = Some s ->
  Server.truthy (Some s') = Some s' ->
  Server.validateDateTime s time_min = Server.validateDateTime s' time_min ->
  Server.get_property_events property_id (Some s) end_date db
  = Server.get_property_events property_id (Some s') end_date db.
Proof.
  intros T T' V.
  unfold Server.get_property_events, Server.events_query, Server.is_truthy.
  rewrite T, T', V. reflexivity.
Qed.

(** And on an end string through its parsed value. *)
Lemma listing_end_congruence
      (property_id : Z) (start_date : option string) (s s' : string)
      (db : Session) :
  Server.truthy (Some s) = Some s ->
  Server.truthy (Some s') = Some s' ->
  Server.validateDateTime s time_max = Server.validateDateTime s' time_max ->
  Server.get_property_events property_id start_date (Some s) db
  = Server.get_property_events property_id start_date (Some s') db.
Proof.
  intros T T' V.
  unfold Server.get_property_events, Server.events_query, Server.is_truthy.
  rewrite T, T', V. reflexivity.
Qed.

End DateParameters.

(** C5: in every store, for every property and whatever the other bound,
    the listing from ["2024-01-01"] is the listing from
    ["2024-01-01T00:00:00"], and the listing up to ["2024-01-01"] is the
    listing up to ["2024-01-01T23:59:59.999999"]: the date alone is read
    as the start of that day for a start and as its end for an end. *)
Theorem date_only_bounds (property_id : Z) (other : option string)
        (db : Session) :
  Server.get_property_events property_id (Some "2024-01-01") other db
  = Server.get_property_events property_id (Some "2024-01-01T00:00:00") other db
  /\ Server.get_property_events property_id other (Some "2024-01-01") db
     = Server.get_property_events property_id other
         (Some "2024-01-01T23:59:59.999999") db
  /\ Server.validateDateTime "2024-01-01" time_min
     = Some (mkDatetime 2024 1 1 0 0 0 0 None)
  /\ Server.validateDateTime "2024-01-01" time_max
     = Some (mkDatetime 2024 1 1 23 59 59 999999 None).
Proof.
  split; [|split; [|split]].
  - apply listing_start_congruence; vm_compute; reflexivity.
  - apply listing_end_congruence; vm_compute; reflexivity.
  - vm_compute; reflexivity.
  - vm_compute; reflexivity.
Qed.

(** C10: when the parser reads a string as a datetime whose time of day is
    00:00:00.000000, [validateDateTime] answers the date of it at the
    default time, for every default.  So such a string cannot be told from
    any other string read as 00:00:00.000000 of the same date, the date
    alone among them; and as an end bound it is the end of its day: the
    listing is the one of any string read as 23:59:59.999999 of that
    date. *)
Theorem explicit_midnight_takes_default (s : string) (parsed : datetime) :
  fromisoformat s = Some parsed ->
  datetime_time parsed = time_min ->
  (forall defaultTime,
      Server.validateDateTime s defaultTime
      = Some (combine parsed defaultTime))
  /\ (forall s' parsed' defaultTime,
        fromisoformat s' = Some parsed' ->
        datetime_time parsed' = time_min ->
        (year parsed', month parsed', day parsed')
        = (year parsed, month parsed, day parsed) ->
        Server.validateDateTime s' defaultTime
        = Server.validateDateTime s defaultTime)
  /\ (forall s' property_id start_date db,
        fromisoformat s' = Some (combine parsed time_max) ->
        Server.get_property_events property_id start_date (Some s) db
        = Server.get_property_events property_id start_date (Some s') db).
Proof.
  intros P M.
  assert (V : forall defaultTime,
             Server.validateDateTime s defaultTime
             = Some (combine parsed defaultTime)).
  { intros defaultTime. unfold Server.validateDateTime.
    rewrite P, M. reflexivity. }
  split; [exact V|split].
  - intros s' parsed' defaultTime P' M' [= Ey Em Ed].
    rewrite V. unfold Server.validateDateTime. rewrite P', M'. simpl.
    unfold combine. now rewrite Ey, Em, Ed.
  - intros s' property_id start_date db P'.
    apply listing_end_congruence.
    + exact (parsed_is_truthy _ _ P).
    + exact (parsed_is_truthy _ _ P').
    + rewrite V. unfold Server.validateDateTime. rewrite P'. reflexivity.
Qed.

(** Witness of C10: ["2024-01-01T00:00:00"] as an end bound, next to
    ["2024-01-01"] and to ["2024-01-01T23:59:59.999999"]. *)
Lemma explicit_midnight_takes_default_witness :
  fromisoformat "2024-01-01T00:00:00"
  = Some (mkDatetime 2024 1 1 0 0 0 0 None)
  /\ Server.validateDateTime "2024-01-01T00:00:00" time_max
     = Some (mkDatetime 2024 1 1 23 59 59 999999 None)
  /\ Server.validateDateTime "2024-01-01" time_max
     = Server.validateDateTime "2024-01-01T00:00:00" time_max
  /\ Server.get_property_events 1 None (Some "2024-01-01T00:00:00")
       Scenario.one_event
     = Server.get_property_events 1 None (Some "2024-01-01T23:59:59.999999")
         Scenario.one_event.
Proof.
  split; [vm_compute; reflexivity|].
  pose proof (explicit_midnight_takes_default
                "2024-01-01T00:00:00" (mkDatetime 2024 1 1 0 0 0 0 None)
                eq_refl eq_refl) as (V & I & L).
  split; [|split].
  - exact (V time_max).
  - exact (I "2024-01-01" (mkDatetime 2024 1 1 0 0 0 0 None) time_max
             eq_refl eq_refl eq_refl).
  - exact (L "2024-01-01T23:59:59.999999" 1 None Scenario.one_event eq_refl).
Defined.

(** C6, as stated, fails at the empty string: the parser refuses it, but a
    handler takes an empty parameter for an absent one.  The event is
    created, at the time of the clock, and the listing is not filtered. *)
Lemma empty_date_string_is_not_refused :
  fromisoformat "" = None
  /\ Server.create_event 1 "inspection" (Some "") Scenario.clock
       (mkSession [Scenario.unit_101] [])
     = Return (Log.mk 1 1 Scenario.clock "inspection",
               mkSession [Scenario.unit_101]
                         [Log.mk 1 1 Scenario.clock "inspection"])
  /\ Server.get_property_events 1 (Some "") (Some "") Scenario.one_event
     = Return [Scenario.inspection].
Proof.
  repeat split; vm_compute; reflexivity.
Qed.

(** C6, amended: a string that is not empty and that the parser refuses is
    answered with a 400 whose message names the two formats, as the
    timestamp of [create_event] and as a bound of [get_property_events]
    (for an end bound the 400 is the one of the start bound when that one
    is refused too); a handler that raises returns no event and leaves no
    new store.  The empty string is taken for an absent parameter, in
    every store: [create_event] does with it what it does without
    timestamp, and stamps the event it returns with the clock, and
    [get_property_events] lists with it what it lists without that
    bound. *)
Theorem unparsable_date_is_bad_request :
  (forall s,
      s <> "" ->
      fromisoformat s = None ->
      (forall property_id description now db,
          Server.create_event property_id description (Some s) now db
          = Raise (Server.bad_request
              "Unable to parse timestamp. Use YYYY-MM-DD or YYYY-MM-DDTHH:MM:SS"))
      /\ (forall property_id end_date db,
            Server.get_property_events property_id (Some s) end_date db
            = Raise (Server.bad_request
                "Unable to parse start_date. Use YYYY-MM-DD or YYYY-MM-DDTHH:MM:SS"))
      /\ (forall property_id start_date db,
            Server.get_property_events property_id start_date (Some s) db
            = Raise (Server.bad_request
                "Unable to parse end_date. Use YYYY-MM-DD or YYYY-MM-DDTHH:MM:SS")
            \/ Server.get_property_events property_id start_date (Some s) db
               = Raise (Server.bad_request
                   "Unable to parse start_date. Use YYYY-MM-DD or YYYY-MM-DDTHH:MM:SS")))
  /\ (forall property_id description now db,
        Server.create_event property_id description (Some "") now db
        = Server.create_event property_id description None now db)
  /\ (forall property_id description now db log db',
        Server.create_event property_id description (Some "") now db
        = Return (log, db') ->
        Log.timestamp log = bind_datetime now)
  /\ (forall property_id end_date db,
        Server.get_property_events property_id (Some "") end_date db
        = Server.get_property_events property_id None end_date db)
  /\ (forall property_id start_date db,
        Server.get_property_events property_id start_date (Some "") db
        = Server.get_property_events property_id start_date None db).
Proof.
  split; [|split; [|split; [|split]]]; try (intros; reflexivity).
  - intros s N P.
    pose proof (nonempty_is_truthy s N) as T.
    assert (V : forall t, Server.validateDateTime s t = None)
      by (intros t; unfold Server.validateDateTime; now rewrite P).
    split; [|split].
    + intros. unfold Server.create_event. rewrite T, V. reflexivity.
    + intros. unfold Server.get_property_events, Server.events_query.
      rewrite T, V. reflexivity.
    + intros property_id start_date db.
      unfold Server.get_property_events, Server.events_query.
      rewrite T, V.
      destruct (Server.truthy start_date) as [s0|];
        [destruct (Server.validateDateTime s0 time_min)|]; simpl;
        auto.
  - intros property_id description now db log db' [= <- _]. reflexivity.
Qed.

(** Witness of C6: ["not-a-date"]. *)
Lemma unparsable_date_is_bad_request_witness :
  fromisoformat "not-a-date" = None
  /\ Server.create_event 1 "inspection" (Some "not-a-date") Scenario.clock
       Scenario.one_event
     = Raise (Server.bad_request
         "Unable to parse timestamp. Use YYYY-MM-DD or YYYY-MM-DDTHH:MM:SS").
Proof.
  split; [vm_compute; reflexivity|].
  refine (proj1 (proj1 unparsable_date_is_bad_request "not-a-date" _ _)
                _ _ _ _).
  - discriminate.
  - vm_compute; reflexivity.
Defined.

(* ================================================================= *)
(** ** Where the handlers part from their documentation *)

(** C1: the end bound is compared with [>=], like the start bound.  The
    event created at noon of 2024-03-01 under property 1 is not listed for
    the range from 2024-02-01 to 2024-04-01, which holds it (the listing is
    a 404), and it is listed for the range from 2024-01-01 to 2024-02-01,
    which lies before it. *)
Lemma listing_end_bound_is_a_lower_bound :
  Server.create_event 1 "inspection" (Some "2024-03-01T12:00:00")
    Scenario.clock (mkSession [Scenario.unit_101] [])
  = Return (Scenario.inspection, Scenario.one_event)
  /\ Server.get_property_events 1 (Some "2024-02-01") (Some "2024-04-01")
       Scenario.one_event
     = Raise (Server.not_found
                "No events found for this property in the given range.")
  /\ Server.get_property_events 1 (Some "2024-01-01") (Some "2024-02-01")
       Scenario.one_event
     = Return [Scenario.inspection].
Proof.
  repeat split; vm_compute; reflexivity.
Qed.

(** The rows a listing with both bounds returns are the events of the
    property at or after the start and at or after the end. *)
Lemma listing_rows_with_both_bounds
      (property_id : Z) (s e : string) (from upto : datetime) (db : Session) :
  Server.truthy (Some s) = Some s ->
  Server.truthy (Some e) = Some e ->
  Server.validateDateTime s time_min = Some from ->
  Server.validateDateTime e time_max = Some upto ->
  Server.events_query property_id (Some s) (Some e)
  = Return [Log_propertyId_eq property_id;
            Log_timestamp_ge from; Log_timestamp_ge upto]
  /\ forall l,
       In l (all_logs [Log_propertyId_eq property_id;
                       Log_timestamp_ge from; Log_timestamp_ge upto] db)
       <-> In l (logs db)
           /\ Log.propertyId l = property_id
           /\ sql_ge (Log.timestamp l) from = true
           /\ sql_ge (Log.timestamp l) upto = true.
Proof.
  intros Ts Te Vs Ve. split.
  - unfold Server.events_query. rewrite Ts, Te, Vs. simpl. rewrite Ve.
    reflexivity.
  - intros l. unfold all_logs. rewrite filter_In. simpl.
    rewrite !andb_true_iff, Z.eqb_eq. tauto.
Qed.

(** C2: the condition [Log.propertyId == property_id and Log.id == event_id]
    is the condition on [propertyId] alone.  With two events under
    property 1, asking for event 2 answers event 1, and asking for event 99,
    which is no event, answers event 1 as well instead of a 404; the earlier
    variant does the same. *)
Lemma get_event_answers_another_event :
  Log.id Scenario.inspection = 1
  /\ Server.get_event 1 2 Scenario.two_events = Return Scenario.inspection
  /\ Server.get_event 1 99 Scenario.two_events = Return Scenario.inspection
  /\ Legacy.get_log 1 2 Scenario.two_events = Return Scenario.inspection
  /\ Legacy.get_log 1 99 Scenario.two_events = Return Scenario.inspection.
Proof.
  repeat split; vm_compute; reflexivity.
Qed.

(** [get_event] does not depend on the event id: it answers the first
    event of the property. *)
Lemma get_event_ignores_event_id (property_id event_id : Z) (db : Session) :
  Server.get_event property_id event_id db
  = match first (all_logs [Log_propertyId_eq property_id] db) with
    | Some log => Return log
    | None => Raise (Server.not_found "Log not found.")
    end.
Proof.
  unfold Server.get_event, py_and, criterion_bool, filter_. simpl.
  destruct (first _); reflexivity.
Qed.

(** C3: [delete_event] fetches a row of [properties] and deletes it.  With
    property 1 and its event 1, deleting event 1 of property 1 answers
    "Event deleted", removes property 1 and keeps the event.  With
    properties 1 and 2 and event 1 of property 2, deleting that event
    removes property 1.  The earlier variant does the same. *)
Lemma delete_event_deletes_a_property :
  Server.delete_event 1 1 Scenario.one_event
  = Return ([("message", "Event deleted")],
            mkSession [] [Scenario.inspection])
  /\ Server.delete_event 2 1 Scenario.two_properties
     = Return ([("message", "Event deleted")],
               mkSession [Scenario.unit_102] [Scenario.viewing])
  /\ Legacy.delete_event 1 1 Scenario.one_event
     = Return ([("message", "Event deleted")],
               mkSession [] [Scenario.inspection])
  /\ Legacy.delete_event 2 1 Scenario.two_properties
     = Return ([("message", "Event deleted")],
               mkSession [Scenario.unit_102] [Scenario.viewing]).
Proof.
  repeat split; vm_compute; reflexivity.
Qed.

(** [delete_event] never removes an event: when it succeeds, [logs] is
    what it was. *)
Lemma delete_event_keeps_logs
      (property_id event_id : Z) (db db' : Session) (answer : json) :
  Server.delete_event property_id event_id db = Return (answer, db') ->
  logs db' = logs db.
Proof.
  unfold Server.delete_event.
  destruct (first _) as [row|]; [|discriminate].
  intros [= _ <-]. reflexivity.
Qed.

(** It succeeds exactly when the property has an event and [properties] is
    not empty, and then removes the rows of [properties] that have the id
    of the first one. *)
Lemma delete_event_removes_first_property
      (property_id event_id : Z) (p : Property.t) (ps : list Property.t)
      (ls : list Log.t) :
  existsb (fun l => Log.propertyId l =? property_id) ls = true ->
  Server.delete_event property_id event_id (mkSession (p :: ps) ls)
  = Return ([("message", "Event deleted")],
            delete_property_row (mkSession (p :: ps) ls) p).
Proof.
  intros H. unfold Server.delete_event, all_properties_where_log, py_and,
    criterion_bool, first. simpl.
  rewrite filter_app, map_app.
  assert (E : exists l rest,
             filter (fun pl : Property.t * Log.t =>
                       Log.propertyId (snd pl) =? property_id)
                    (map (fun y => (p, y)) ls) = (p, l) :: rest).
  { clear -H. induction ls as [|l ls IH]; simpl in *; [discriminate|].
    destruct (Log.propertyId l =? property_id); simpl in *.
    - eexists; eexists; reflexivity.
    - exact (IH H). }
  destruct E as (l & rest & ->). reflexivity.
Qed.

(* ================================================================= *)
(** ** Primary keys along the handlers *)

Section KeyLemmas.

Lemma sorted_snoc (l : list Z) (y : Z) :
  StronglySorted Z.lt l ->
  (forall x, In x l -> x < y) ->
  StronglySorted Z.lt (l ++ [y]).
Proof.
  induction l as [|a l IH]; intros S B; simpl.
  - repeat constructor.
  - inversion S as [|? ? S' F]; subst. constructor.
    + apply IH; [exact S'|]. intros x Hx. apply B. now right.
    + apply Forall_app. split; [exact F|].
      constructor; [apply B; now left|constructor].
Qed.

Lemma sorted_map_filter {A : Type} (g : A -> Z) (f : A -> bool) (l : list A) :
  StronglySorted Z.lt (map g l) ->
  StronglySorted Z.lt (map g (filter f l)).
Proof.
  induction l as [|a l IH]; simpl; intros S; [constructor|].
  inversion S as [|? ? S' F]; subst.
  destruct (f a); simpl; [|now apply IH].
  constructor; [now apply IH|].
  rewrite Forall_forall in *. intros x Hx.
  apply in_map_iff in Hx as (y & <- & Hy).
  apply filter_In in Hy as [Hy _]. apply F. now apply in_map.
Qed.

(** Among rows of growing ids, the rows that have the id of a row of the
    table are that row alone. *)
Lemma sorted_unique {A : Type} (g : A -> Z) (l : list A) (a : A) :
  StronglySorted Z.lt (map g l) ->
  In a l ->
  filter (fun x => g x =? g a) l = [a].
Proof.
  induction l as [|b l IH]; simpl; intros S Hin; [now destruct Hin|].
  inversion S as [|? ? S' F]; subst. rewrite Forall_forall in F.
  destruct Hin as [->|Hin].
  - rewrite Z.eqb_refl. f_equal. apply filter_nil_iff. intros x Hx.
    apply Z.eqb_neq. assert (g a < g x) by (apply F; now apply in_map). lia.
  - assert (g b < g a) by (apply F; now apply in_map).
    destruct (Z.eqb_spec (g b) (g a)) as [E|_]; [lia|]. now apply IH.
Qed.

Lemma sorted_injective {A : Type} (g : A -> Z) (l : list A) (a b : A) :
  StronglySorted Z.lt (map g l) ->
  In a l -> In b l -> g a = g b -> a = b.
Proof.
  intros S Ha Hb E.
  assert (H : In a (filter (fun x => g x =? g b) l)).
  { apply filter_In. split; [exact Ha|now apply Z.eqb_eq]. }
  rewrite (sorted_unique g l b S Hb) in H. destruct H as [->|[]]. reflexivity.
Qed.

(** The row [first] finds for an id has that id and is in the table. *)
Lemma first_by_id (property_id : Z) (db : Session) (p : Property.t) :
  first (all_properties_by_id property_id db) = Some p ->
  In p (properties db) /\ Property.id p = property_id.
Proof.
  unfold first, all_properties_by_id. intros F.
  assert (H : In p (filter (fun q => Property.id q =? property_id)
                           (properties db))).
  { destruct (filter _ (properties db)); [discriminate|].
    injection F as ->. now left. }
  apply filter_In in H as [Hin E]. split; [exact Hin|now apply Z.eqb_eq].
Qed.

(** Writing new fields into the rows of one id keeps the ids. *)
Lemma update_keeps_ids (k : Z) (updated : Property.t) (l : list Property.t) :
  Property.id updated = k ->
  map Property.id
      (map (fun p => if Property.id p =? k then updated else p) l)
  = map Property.id l.
Proof.
  intros U. rewrite map_map. apply map_ext. intros p.
  destruct (Z.eqb_spec (Property.id p) k) as [E|_]; congruence.
Qed.

End KeyLemmas.

Import Keys.

(** X1: the handlers that write keep the primary keys in order.  From a
    store where the ids grow strictly along each table, each of
    [create_property], [update_property], [delete_property],
    [create_event] and [delete_event], when it returns, leaves such a
    store. *)
Theorem handlers_keep_keys_ok (db : Session) :
  keys_ok db ->
  (forall number notes p db',
      Server.create_property number notes db = Return (p, db') -> keys_ok db')
  /\ (forall property_id number notes p db',
        Server.update_property property_id number notes db = Return (p, db') ->
        keys_ok db')
  /\ (forall property_id answer db',
        Server.delete_property property_id db = Return (answer, db') ->
        keys_ok db')
  /\ (forall property_id description timestamp now log db',
        Server.create_event property_id description timestamp now db
        = Return (log, db') ->
        keys_ok db')
  /\ (forall property_id event_id answer db',
        Server.delete_event property_id event_id db = Return (answer, db') ->
        keys_ok db').
Proof.
  intros [SP SL]. split; [|split; [|split; [|split]]].
  - intros number notes p db' [= _ <-]. split; simpl; [|exact SL].
    rewrite map_app. simpl. apply sorted_snoc; [exact SP|].
    intros x Hx. now apply next_rowid_fresh.
  - intros property_id number notes p db'. unfold Server.update_property.
    destruct (first _) as [property_|]; [|discriminate].
    intros [= _ <-]. split; simpl; [|exact SL].
    rewrite update_keeps_ids; [exact SP|reflexivity].
  - intros property_id answer db'. unfold Server.delete_property.
    destruct (first _) as [property_|]; [|discriminate].
    intros [= _ <-].
    destruct (fold_delete_log
                (all_logs (filter_ [] (Log_propertyId_eq property_id)) db) db)
      as [Hp Hl].
    split; simpl.
    + rewrite Hp. now apply sorted_map_filter.
    + rewrite Hl. now apply sorted_map_filter.
  - intros property_id description timestamp now log db'.
    unfold Server.create_event.
    assert (A : forall d, keys_ok (snd (add_log property_id d description db))).
    { intros d. split; simpl; [exact SP|].
      rewrite map_app. simpl. apply sorted_snoc; [exact SL|].
      intros x Hx. now apply next_rowid_fresh. }
    destruct (Server.truthy timestamp) as [s|];
      [destruct (Server.validateDateTime s time_min) as [d|]|]; simpl;
      try discriminate; intros [= _ <-]; apply A.
  - intros property_id event_id answer db'. unfold Server.delete_event.
    destruct (first _) as [row|]; [|discriminate].
    intros [= _ <-]. split; simpl; [|exact SL].
    now apply sorted_map_filter.
Qed.

(** Witness of X1: the empty store, and a property created in it. *)
Lemma handlers_keep_keys_ok_witness :
  keys_ok Scenario.empty
  /\ keys_ok (mkSession [Scenario.unit_101] []).
Proof.
  assert (E : keys_ok Scenario.empty) by (split; constructor).
  split; [exact E|].
  exact (proj1 (handlers_keep_keys_ok Scenario.empty E)
               "101" "corner unit" Scenario.unit_101
               (mkSession [Scenario.unit_101] []) eq_refl).
Defined.

(* ================================================================= *)
(** ** Properties: fetch, update, delete, list *)

(** The 404 of the first query of a property handler: no stored property
    has the id. *)
Lemma first_by_id_none (property_id : Z) (db : Session) :
  first (all_properties_by_id property_id db) = None
  <-> forall p, In p (properties db) -> Property.id p <> property_id.
Proof.
  unfold first, all_properties_by_id. split.
  - intros F p Hin E.
    destruct (filter _ (properties db)) eqn:G; [|discriminate].
    pose proof (proj1 (filter_nil_iff _ _) G p Hin) as X. simpl in X.
    rewrite E, Z.eqb_refl in X. discriminate.
  - intros H.
    assert (G : filter (fun p => Property.id p =? property_id) (properties db)
                = []).
    { apply filter_nil_iff. intros p Hin. apply Z.eqb_neq. now apply H. }
    rewrite G. reflexivity.
Qed.

(** X2: [get_property] ends in one of three ways.  It raises the error of
    the driver exactly when the id is outside the signed 64 bits; it
    raises the 404 exactly when the id is inside and no stored property
    has it; and what it returns is a stored property that has the id. *)
Theorem get_property_found_iff (property_id : Z) (db : Session) :
  (Endpoint.get_property property_id db = Raise overflow_error
   <-> in_int64 property_id = false)
  /\ (Endpoint.get_property property_id db
      = Raise (Server.not_found "Property not found.")
      <-> in_int64 property_id = true
          /\ forall p, In p (properties db) -> Property.id p <> property_id)
  /\ (forall p,
        Endpoint.get_property property_id db = Return p ->
        in_int64 property_id = true
        /\ In p (properties db) /\ Property.id p = property_id).
Proof.
  unfold Endpoint.get_property, bound, Server.get_property.
  destruct (in_int64 property_id).
  - destruct (first (all_properties_by_id property_id db)) as [q|] eqn:F.
    + destruct (first_by_id _ _ _ F) as [Hin E].
      split; [|split].
      * split; discriminate.
      * split; [discriminate|]. intros [_ H]. now destruct (H q Hin).
      * intros p [= <-]. now repeat split.
    + pose proof (proj1 (first_by_id_none _ _) F) as F'; clear F;
        rename F' into F.
      split; [|split].
      * split; discriminate.
      * split; [now split|reflexivity].
      * discriminate.
  - split; [|split].
    + split; reflexivity.
    + split; [discriminate|]. intros [[=] _].
    + discriminate.
Qed.

(** X3: in a store whose keys are in order, every stored property is what
    [get_property] returns at its id. *)
Theorem stored_property_is_fetched (db : Session) (p : Property.t) :
  keys_ok db ->
  In p (properties db) ->
  Server.get_property (Property.id p) db = Return p.
Proof.
  intros [SP _] Hin. unfold Server.get_property, all_properties_by_id.
  rewrite (sorted_unique Property.id (properties db) p SP Hin). reflexivity.
Qed.

(** Witness of X3: property 2 of the store of two properties. *)
Lemma stored_property_is_fetched_witness :
  Server.get_property 2 Scenario.two_properties = Return Scenario.unit_102.
Proof.
  apply (stored_property_is_fetched Scenario.two_properties Scenario.unit_102).
  - split; simpl; repeat constructor.
  - right. left. reflexivity.
Defined.

(** X4: when [update_property] returns, the record it returns has the id
    asked for and the number and notes given, and [get_property] at that
    id, in the store the update leaves, returns that record. *)
Theorem update_property_then_get
        (property_id : Z) (number notes : string) (db db' : Session)
        (p : Property.t) :
  Server.update_property property_id number notes db = Return (p, db') ->
  Server.get_property property_id db' = Return p
  /\ Property.id p = property_id
  /\ Property.number p = number
  /\ Property.notes p = notes.
Proof.
  unfold Server.update_property.
  destruct (first (all_properties_by_id property_id db)) as [q|] eqn:F;
    [|discriminate].
  destruct (first_by_id _ _ _ F) as [_ E].
  intros [= <- <-]. simpl. split; [|now repeat split].
  unfold Server.get_property, all_properties_by_id. simpl.
  rewrite filter_map_swap.
  rewrite (filter_ext _ (fun x => Property.id x =? property_id)).
  - unfold first, all_properties_by_id in F.
    destruct (filter _ (properties db)) as [|a l]; [discriminate|].
    injection F as ->. simpl. rewrite Z.eqb_refl. reflexivity.
  - intros x. destruct (Z.eqb_spec (Property.id x) (Property.id q)) as [X|X];
      simpl; [|reflexivity].
    rewrite X, E, Z.eqb_refl. reflexivity.
Qed.

(** Witness of X4: new number and notes for property 1. *)
Lemma update_property_then_get_witness :
  Server.get_property 1
    (mkSession [Property.mk 1 "101A" "sold"] [Scenario.inspection])
  = Return (Property.mk 1 "101A" "sold").
Proof.
  refine (proj1 (update_property_then_get 1 "101A" "sold" Scenario.one_event
                   _ _ _)).
  vm_compute. reflexivity.
Defined.

(** X5: what [update_property] leaves alone.  When it returns, [logs] is
    what it was, the ids of [properties] are what they were, in the same
    order, and [get_property] at any other id answers what it answered
    before. *)
Theorem update_property_frame
        (property_id : Z) (number notes : string) (db db' : Session)
        (p : Property.t) :
  Server.update_property property_id number notes db = Return (p, db') ->
  logs db' = logs db
  /\ map Property.id (properties db') = map Property.id (properties db)
  /\ (forall other,
        other <> property_id ->
        Server.get_property other db' = Server.get_property other db).
Proof.
  unfold Server.update_property.
  destruct (first (all_properties_by_id property_id db)) as [q|] eqn:F;
    [|discriminate].
  destruct (first_by_id _ _ _ F) as [_ E].
  intros [= _ <-]. simpl. split; [reflexivity|split].
  - now apply update_keeps_ids.
  - intros other N. unfold Server.get_property, all_properties_by_id. simpl.
    set (h := fun x : Property.t =>
                if Property.id x =? Property.id q
                then Property.mk (Property.id q) number notes else x).
    assert (G : filter (fun x => Property.id x =? other)
                       (map h (properties db))
                = filter (fun x => Property.id x =? other) (properties db)).
    { rewrite filter_map_swap.
      rewrite (filter_ext _ (fun x => Property.id x =? other)).
      - rewrite <- (map_id (filter _ (properties db))) at 2.
        apply map_ext_in. intros x Hx. apply filter_In in Hx as [_ Hx].
        apply Z.eqb_eq in Hx. unfold h.
        destruct (Z.eqb_spec (Property.id x) (Property.id q));
          [lia|reflexivity].
      - intros x. unfold h.
        destruct (Z.eqb_spec (Property.id x) (Property.id q)) as [X|X];
          simpl; [|reflexivity].
        rewrite X, E.
        destruct (Z.eqb_spec property_id other); [congruence|reflexivity]. }
    rewrite G. reflexivity.
Qed.

(** Witness of X5: after the update of property 1, property 2 is fetched
    as before. *)
Lemma update_property_frame_witness :
  Server.get_property 2
    (mkSession [Property.mk 1 "101A" "sold"; Scenario.unit_102]
               [Scenario.viewing])
  = Server.get_property 2 Scenario.two_properties.
Proof.
  refine (proj2 (proj2 (update_property_frame 1 "101A" "sold"
                          Scenario.two_properties _ _ _)) 2 _).
  - vm_compute. reflexivity.
  - discriminate.
Defined.

(** X6: [update_property] raises the error of the driver exactly when the
    id is outside the signed 64 bits, raises the 404 exactly when the id
    is inside and no stored property has it, and returns exactly when the
    id is inside and a stored property has it. *)
Theorem update_property_not_found_iff
        (property_id : Z) (number notes : string) (db : Session) :
  (Endpoint.update_property property_id number notes db
   = Raise overflow_error
   <-> in_int64 property_id = false)
  /\ (Endpoint.update_property property_id number notes db
      = Raise (Server.not_found "Property not found.")
      <-> in_int64 property_id = true
          /\ forall p, In p (properties db) -> Property.id p <> property_id)
  /\ ((in_int64 property_id = true
       /\ exists p, In p (properties db) /\ Property.id p = property_id)
      <-> exists p db',
            Endpoint.update_property property_id number notes db
            = Return (p, db')).
Proof.
  unfold Endpoint.update_property, bound, Server.update_property.
  destruct (in_int64 property_id).
  - destruct (first (all_properties_by_id property_id db)) as [q|] eqn:F.
    + destruct (first_by_id _ _ _ F) as [Hin E].
      split; [|split].
      * split; discriminate.
      * split; [discriminate|]. intros [_ H]. now destruct (H q Hin).
      * split.
        -- intros _. eexists; eexists; reflexivity.
        -- intros _. split; [reflexivity|]. exists q. now split.
    + pose proof (proj1 (first_by_id_none _ _) F) as F'; clear F;
        rename F' into F.
      split; [|split].
      * split; discriminate.
      * split; [now split|reflexivity].
      * split.
        -- intros [_ (p & Hin & E)]. now destruct (F p Hin).
        -- intros (p & db' & [=]).
  - split; [|split].
    + split; reflexivity.
    + split; [discriminate|]. intros [[=] _].
    + split.
      * intros [[=] _].
      * intros (p & db' & [=]).
Qed.

(** X7: what [delete_property] removes, in a store whose keys are in
    order: the properties of that id and the events of that property, and
    nothing else; the rows that stay keep their order. *)
Theorem delete_property_frame
        (property_id : Z) (db db' : Session) (answer : json) :
  keys_ok db ->
  Server.delete_property property_id db = Return (answer, db') ->
  properties db'
  = filter (fun p => negb (Property.id p =? property_id)) (properties db)
  /\ logs db'
     = filter (fun l => negb (Log.propertyId l =? property_id)) (logs db).
Proof.
  intros [_ SL]. unfold Server.delete_property.
  destruct (first (all_properties_by_id property_id db)) as [q|] eqn:F;
    [|discriminate].
  destruct (first_by_id _ _ _ F) as [_ E].
  intros [= _ <-].
  set (rows := all_logs (filter_ [] (Log_propertyId_eq property_id)) db).
  destruct (fold_delete_log rows db) as [Hp Hl]. simpl. split.
  - rewrite Hp, E. reflexivity.
  - rewrite Hl. apply filter_ext_in. intros l Hin. f_equal.
    destruct (Z.eqb_spec (Log.propertyId l) property_id) as [P|P].
    + apply existsb_exists. exists l. split; [|apply Z.eqb_refl].
      unfold rows, all_logs, filter_. simpl. apply filter_In.
      split; [exact Hin|]. simpl. rewrite P, Z.eqb_refl. reflexivity.
    + destruct (existsb _ rows) eqn:X; [|reflexivity].
      apply existsb_exists in X as (r & Hr & Er). apply Z.eqb_eq in Er.
      unfold rows, all_logs, filter_ in Hr. simpl in Hr.
      apply filter_In in Hr as [Hr Pr]. simpl in Pr.
      rewrite andb_true_r in Pr. apply Z.eqb_eq in Pr.
      assert (l = r) by (apply (sorted_injective Log.id (logs db)); auto).
      subst r. now destruct P.
Qed.

(** Witness of X7: deleting property 1, which has no event, from the store
    of two properties keeps property 2 and its event. *)
Lemma delete_property_frame_witness :
  properties (mkSession [Scenario.unit_102] [Scenario.viewing])
  = filter (fun p => negb (Property.id p =? 1))
           (properties Scenario.two_properties).
Proof.
  refine (proj1 (delete_property_frame 1 Scenario.two_properties _
                   [("message", "Property and associated logs deleted.")]
                   _ _)).
  - split; simpl; repeat constructor.
  - vm_compute. reflexivity.
Defined.

(* ================================================================= *)
(** ** Events: what creation stores and what the listing shows *)

Section ListingLemmas.

(** The rows of a query in a store with one more event at the end. *)
Lemma all_logs_snoc (q : log_query) (ps : list Property.t)
      (ls : list Log.t) (row : Log.t) :
  all_logs q (mkSession ps (ls ++ [row]))
  = all_logs q (mkSession ps ls)
    ++ (if forallb (fun e => holds e row) q then [row] else []).
Proof.
  unfold all_logs. simpl. rewrite filter_app. reflexivity.
Qed.

(** A listing reads [logs] only. *)
Lemma listing_reads_logs (property_id : Z) (start_date end_date : option string)
      (db db' : Session) :
  logs db' = logs db ->
  Server.get_property_events property_id start_date end_date db'
  = Server.get_property_events property_id start_date end_date db.
Proof.
  intros E. unfold Server.get_property_events, all_logs. rewrite E.
  reflexivity.
Qed.

(** A string [validateDateTime] accepts is not empty. *)
Lemma validated_is_truthy (s : string) (t : time) (d : datetime) :
  Server.validateDateTime s t = Some d -> Server.truthy (Some s) = Some s.
Proof.
  unfold Server.validateDateTime.
  destruct (fromisoformat s) as [p|] eqn:P; [|discriminate].
  intros _. exact (parsed_is_truthy _ _ P).
Qed.

Lemma lex_compare_refl (a : list Z) : lex_compare a a = Eq.
Proof.
  induction a as [|x a IH]; simpl; [reflexivity|].
  now rewrite Z.compare_refl.
Qed.

Lemma lex_compare_not_lt_trans (a : list Z) :
  forall b c,
    lex_compare a b <> Lt -> lex_compare b c <> Lt -> lex_compare a c <> Lt.
Proof.
  induction a as [|x a IH]; intros [|y b] [|z c]; simpl; try congruence.
  destruct (Z.compare_spec x y), (Z.compare_spec y z), (Z.compare_spec x z);
    try congruence; try lia.
  subst. apply IH.
Qed.

(** [>=] on stored timestamps is reflexive and transitive. *)
Lemma sql_ge_refl (a : datetime) : sql_ge a a = true.
Proof.
  unfold sql_ge. now rewrite lex_compare_refl.
Qed.

Lemma sql_ge_trans (a b c : datetime) :
  sql_ge a b = true -> sql_ge b c = true -> sql_ge a c = true.
Proof.
  unfold sql_ge. intros H1 H2.
  pose proof (lex_compare_not_lt_trans
                (fields (bind_datetime a)) (fields (bind_datetime b))
                (fields (bind_datetime c))) as T.
  destruct (lex_compare (fields (bind_datetime a)) (fields (bind_datetime b)));
    try discriminate;
    destruct (lex_compare (fields (bind_datetime b))
                          (fields (bind_datetime c)));
    try discriminate;
    destruct (lex_compare (fields (bind_datetime a))
                          (fields (bind_datetime c)));
    try reflexivity; exfalso; apply T; congruence.
Qed.

End ListingLemmas.

(** X8: an event [create_event] returns is listed.  In the store the
    creation leaves, the listing of the property without bounds returns
    the events of the property that were there, in their order, and then
    the new event. *)
Theorem create_event_then_listed
        (property_id : Z) (description : string) (timestamp : option string)
        (now : datetime) (db db' : Session) (log : Log.t) :
  Server.create_event property_id description timestamp now db
  = Return (log, db') ->
  Server.get_property_events property_id None None db'
  = Return (all_logs [Log_propertyId_eq property_id] db ++ [log]).
Proof.
  unfold Server.create_event.
  assert (A : forall d,
             Server.get_property_events property_id None None
               (snd (add_log property_id d description db))
             = Return (all_logs [Log_propertyId_eq property_id] db
                       ++ [fst (add_log property_id d description db)])).
  { intros d. unfold Server.get_property_events, Server.events_query, filter_.
    simpl. rewrite all_logs_snoc. simpl. rewrite Z.eqb_refl. simpl.
    replace (all_logs [Log_propertyId_eq property_id]
                      (mkSession (properties db) (logs db)))
      with (all_logs [Log_propertyId_eq property_id] db) by reflexivity.
    destruct (all_logs [Log_propertyId_eq property_id] db) as [|l ls];
      simpl; [reflexivity|].
    f_equal. f_equal.
    destruct l as [a b c e]. reflexivity.
    apply (log_copy_id (ls ++ [_])). }
  destruct (Server.truthy timestamp) as [s|];
    [destruct (Server.validateDateTime s time_min) as [d|]|]; simpl;
    try discriminate; intros [= <- <-]; apply A.
Qed.

(** Witness of X8: the second event of property 1. *)
Lemma create_event_then_listed_witness :
  Server.get_property_events 1 None None Scenario.two_events
  = Return [Scenario.inspection; Scenario.repair].
Proof.
  exact (create_event_then_listed 1 "repair" (Some "2024-03-05T08:00:00")
           Scenario.clock Scenario.one_event Scenario.two_events
           Scenario.repair eq_refl).
Defined.

(** X9: the timestamp [create_event] stores, for a property id the store
    can hold.  For a timestamp string the parser reads, the event is
    created and its timestamp is the date and time read, without the
    offset: the default time of day changes nothing at creation.  Without
    timestamp, or with an empty one, it is the clock. *)
Theorem create_event_stores_wall_clock
        (property_id : Z) (description : string) (now : datetime)
        (db : Session) :
  in_int64 property_id = true ->
  (forall s parsed,
      fromisoformat s = Some parsed ->
      exists log db',
        Endpoint.create_event property_id description (Some s) now db
        = Return (log, db')
        /\ Log.timestamp log = bind_datetime parsed)
  /\ (forall timestamp,
        Server.truthy timestamp = None ->
        exists log db',
          Endpoint.create_event property_id description timestamp now db
          = Return (log, db')
          /\ Log.timestamp log = bind_datetime now).
Proof.
  intros R. split.
  - intros s parsed P. unfold Endpoint.create_event, Server.create_event.
    rewrite (parsed_is_truthy _ _ P). unfold Server.validateDateTime.
    rewrite P. cbn [bind]. unfold bound. rewrite R.
    eexists; eexists. split; [reflexivity|]. simpl.
    unfold time_eqb, datetime_time, time_min. simpl.
    destruct (Z.eqb_spec (hour parsed) 0) as [H|]; simpl; [|reflexivity].
    destruct (Z.eqb_spec (minute parsed) 0) as [M|]; simpl; [|reflexivity].
    destruct (Z.eqb_spec (second parsed) 0) as [S|]; simpl; [|reflexivity].
    destruct (Z.eqb_spec (microsecond parsed) 0) as [U|]; simpl;
      [|reflexivity].
    unfold bind_datetime, combine. simpl. now rewrite H, M, S, U.
  - intros timestamp T. unfold Endpoint.create_event, Server.create_event.
    rewrite T. cbn [bind]. unfold bound. rewrite R.
    eexists; eexists. split; reflexivity.
Qed.

(** X10: what [create_event] leaves alone.  When it returns, [properties]
    is what it was, the events that were stored are the first rows of
    [logs], and the listing of any other property, with any bounds,
    answers what it answered before. *)
Theorem create_event_frame
        (property_id : Z) (description : string) (timestamp : option string)
        (now : datetime) (db db' : Session) (log : Log.t) :
  Server.create_event property_id description timestamp now db
  = Return (log, db') ->
  properties db' = properties db
  /\ logs db' = logs db ++ [log]
  /\ (forall x, In x (logs db) -> Log.id x < Log.id log)
  /\ (forall other start_date end_date,
        other <> property_id ->
        Server.get_property_events other start_date end_date db'
        = Server.get_property_events other start_date end_date db).
Proof.
  unfold Server.create_event.
  assert (A : forall d,
             let r := add_log property_id d description db in
             properties (snd r) = properties db
             /\ logs (snd r) = logs db ++ [fst r]
             /\ (forall x, In x (logs db) -> Log.id x < Log.id (fst r))
             /\ (forall other start_date end_date,
                   other <> property_id ->
                   Server.get_property_events other start_date end_date (snd r)
                   = Server.get_property_events other start_date end_date db)).
  { intros d. simpl. split; [reflexivity|split; [reflexivity|split]].
    - intros x Hx. apply next_rowid_fresh. now apply in_map.
    - intros other start_date end_date N. unfold Server.get_property_events.
      destruct (Server.events_query other start_date end_date) as [q|e] eqn:Q;
        simpl; [|reflexivity].
      destruct (events_query_head _ _ _ _ Q) as [rest ->].
      rewrite all_logs_snoc. simpl.
      destruct (Z.eqb_spec property_id other) as [X|_]; [now destruct N|].
      simpl. rewrite app_nil_r. reflexivity. }
  destruct (Server.truthy timestamp) as [s|];
    [destruct (Server.validateDateTime s time_min) as [d|]|]; simpl;
    try discriminate; intros [= <- <-]; apply A.
Qed.

(** Witness of X10: the event added to property 1 is not in the listing of
    property 2. *)
Lemma create_event_frame_witness :
  Server.get_property_events 2 None None Scenario.two_events
  = Server.get_property_events 2 None None Scenario.one_event.
Proof.
  refine (proj2 (proj2 (proj2
            (create_event_frame 1 "repair" (Some "2024-03-05T08:00:00")
               Scenario.clock Scenario.one_event Scenario.two_events
               Scenario.repair eq_refl))) 2 None None _).
  discriminate.
Defined.

(** X11: what [create_property] leaves alone.  The id of the new record
    is above every id in use; [logs] is what it was, so every listing of
    events answers what it answered before; and [get_property] at any
    other id answers what it answered before. *)
Theorem create_property_frame
        (number notes : string) (db db' : Session) (p : Property.t) :
  Server.create_property number notes db = Return (p, db') ->
  (forall q, In q (properties db) -> Property.id q < Property.id p)
  /\ properties db' = properties db ++ [p]
  /\ logs db' = logs db
  /\ (forall property_id start_date end_date,
        Server.get_property_events property_id start_date end_date db'
        = Server.get_property_events property_id start_date end_date db)
  /\ (forall other,
        other <> Property.id p ->
        Server.get_property other db' = Server.get_property other db).
Proof.
  intros [= <- <-]. simpl.
  split; [|split; [reflexivity|split; [reflexivity|split]]].
  - intros q Hq. apply next_rowid_fresh. now apply in_map.
  - intros. now apply listing_reads_logs.
  - intros other N. unfold Server.get_property, all_properties_by_id. simpl.
    rewrite filter_app. simpl.
    destruct (Z.eqb_spec
                (next_rowid (map Property.id (properties db))) other)
      as [X|_]; [now destruct N|].
    rewrite app_nil_r. reflexivity.
Qed.

(** Witness of X11: property 2 created beside property 1. *)
Lemma create_property_frame_witness :
  Server.get_property 1
    (mkSession [Scenario.unit_101; Scenario.unit_102] [])
  = Server.get_property 1 (mkSession [Scenario.unit_101] []).
Proof.
  refine (proj2 (proj2 (proj2 (proj2
            (create_property_frame "102" "" (mkSession [Scenario.unit_101] [])
               _ Scenario.unit_102 eq_refl)))) 1 _).
  discriminate.
Defined.

(** Witness of X9: a timestamp with an offset, a basic-format one, and
    the empty one. *)
Lemma create_event_stores_wall_clock_witness :
  (exists log db',
      Endpoint.create_event 1 "inspection" (Some "2024-03-01T00:00:00+02:00")
        Scenario.clock Scenario.empty = Return (log, db')
      /\ Log.timestamp log = mkDatetime 2024 3 1 0 0 0 0 None)
  /\ (exists log db',
        Endpoint.create_event 1 "inspection" (Some "20240301T1230Z")
          Scenario.clock Scenario.empty = Return (log, db')
        /\ Log.timestamp log = mkDatetime 2024 3 1 12 30 0 0 None)
  /\ (exists log db',
        Endpoint.create_event 1 "inspection" (Some "") Scenario.clock
          Scenario.empty = Return (log, db')
        /\ Log.timestamp log = Scenario.clock).
Proof.
  pose proof (create_event_stores_wall_clock 1 "inspection" Scenario.clock
                Scenario.empty eq_refl) as [P N].
  split; [|split].
  - exact (P "2024-03-01T00:00:00+02:00"
             (mkDatetime 2024 3 1 0 0 0 0 (Some 7200000000)) eq_refl).
  - exact (P "20240301T1230Z"
             (mkDatetime 2024 3 1 12 30 0 0 (Some 0)) eq_refl).
  - exact (N (Some "") eq_refl).
Defined.

(** X12: what a listing returns.  When [get_property_events] returns, the
    list is not empty, it is [logs] with some rows left out, in the order
    of [logs], and every event in it is an event of the property asked
    for. *)
Theorem listing_returns_events_of_property
        (property_id : Z) (start_date end_date : option string)
        (db : Session) (events : list Log.t) :
  Server.get_property_events property_id start_date end_date db
  = Return events ->
  events <> []
  /\ (exists keep, events = filter keep (logs db))
  /\ (forall l, In l events ->
                In l (logs db) /\ Log.propertyId l = property_id).
Proof.
  unfold Server.get_property_events.
  destruct (Server.events_query property_id start_date end_date)
    as [q|e] eqn:Q; cbn [bind]; [|discriminate].
  destruct (events_query_head _ _ _ _ Q) as [rest ->].
  destruct (all_logs (Log_propertyId_eq property_id :: rest) db)
    as [|l ls] eqn:A; [discriminate|].
  rewrite (log_copy_id (l :: ls)). intros [= <-].
  split; [discriminate|split].
  - eexists. rewrite <- A. reflexivity.
  - intros x Hx. rewrite <- A in Hx. unfold all_logs in Hx.
    apply filter_In in Hx as [Hin H]. simpl in H.
    apply andb_true_iff in H as [H _]. split; [exact Hin|now apply Z.eqb_eq].
Qed.

(** Witness of X12: the events of property 2. *)
Lemma listing_returns_events_of_property_witness :
  [Scenario.viewing] <> []
  /\ (forall l, In l [Scenario.viewing] ->
                In l (logs Scenario.two_properties) /\ Log.propertyId l = 2).
Proof.
  pose proof (listing_returns_events_of_property 2 None None
                Scenario.two_properties [Scenario.viewing] eq_refl)
    as (N & _ & H).
  split; [exact N|exact H].
Defined.

(** X13: the start bound alone.  When [start_date] is read as [from] and
    no end is given, an event is listed exactly when it is an event of
    the property stored at or after [from]; the bound itself is in. *)
Theorem start_bound_is_inclusive
        (property_id : Z) (s : string) (from : datetime) (db : Session) :
  Server.validateDateTime s time_min = Some from ->
  (forall l,
      (exists events,
          Server.get_property_events property_id (Some s) None db
          = Return events /\ In l events)
      <-> In l (logs db)
          /\ Log.propertyId l = property_id
          /\ sql_ge (Log.timestamp l) from = true)
  /\ (forall l,
        In l (logs db) ->
        Log.propertyId l = property_id ->
        Log.timestamp l = from ->
        exists events,
          Server.get_property_events property_id (Some s) None db
          = Return events /\ In l events).
Proof.
  intros V.
  assert (G : Server.get_property_events property_id (Some s) None db
              = match all_logs [Log_propertyId_eq property_id;
                                Log_timestamp_ge from] db with
                | [] => Raise (Server.not_found
                    "No events found for this property in the given range.")
                | rows => Return rows
                end).
  { unfold Server.get_property_events, Server.events_query, Server.is_truthy.
    rewrite (validated_is_truthy _ _ _ V), V. simpl.
    destruct (all_logs _ db) as [|l ls]; [reflexivity|].
    now rewrite (log_copy_id (l :: ls)). }
  assert (M : forall l,
             In l (all_logs [Log_propertyId_eq property_id;
                             Log_timestamp_ge from] db)
             <-> In l (logs db)
                 /\ Log.propertyId l = property_id
                 /\ sql_ge (Log.timestamp l) from = true).
  { intros l. unfold all_logs. rewrite filter_In. simpl.
    rewrite !andb_true_iff, Z.eqb_eq. tauto. }
  assert (I : forall l,
             (exists events,
                 Server.get_property_events property_id (Some s) None db
                 = Return events /\ In l events)
             <-> In l (logs db)
                 /\ Log.propertyId l = property_id
                 /\ sql_ge (Log.timestamp l) from = true).
  { intros l. rewrite <- M, G.
    destruct (all_logs _ db) as [|x xs]; split.
    - intros (events & [=] & _).
    - intros [].
    - intros (events & [= <-] & H). exact H.
    - intros H. eexists. split; [reflexivity|exact H]. }
  split; [exact I|].
  intros l Hin P T. apply I. repeat split; auto.
  rewrite T. apply sql_ge_refl.
Qed.

(** Witness of X13: the events of property 1 from the time of the first
    one on. *)
Lemma start_bound_is_inclusive_witness :
  exists events,
    Server.get_property_events 1 (Some "2024-03-01T12:00:00") None
      Scenario.two_events = Return events
    /\ In Scenario.inspection events.
Proof.
  refine (proj2 (start_bound_is_inclusive 1 "2024-03-01T12:00:00"
                   (mkDatetime 2024 3 1 12 0 0 0 None) Scenario.two_events
                   eq_refl)
                Scenario.inspection _ eq_refl eq_refl).
  left. reflexivity.
Defined.

(** X14: a later start lists no more.  With the same end parameter, when
    the listing from the later of two starts returns, the listing from
    the earlier one returns too and holds every event of the first. *)
Theorem later_start_lists_no_more
        (property_id : Z) (early late : string) (from_early from_late : datetime)
        (end_date : option string) (db : Session) (events : list Log.t) :
  Server.validateDateTime early time_min = Some from_early ->
  Server.validateDateTime late time_min = Some from_late ->
  sql_ge from_late from_early = true ->
  Server.get_property_events property_id (Some late) end_date db
  = Return events ->
  exists more,
    Server.get_property_events property_id (Some early) end_date db
    = Return more
    /\ forall l, In l events -> In l more.
Proof.
  intros Ve Vl G.
  assert (Q : forall s d,
             Server.validateDateTime s time_min = Some d ->
             Server.events_query property_id (Some s) end_date
             = match Server.truthy end_date with
               | Some e =>
                   match Server.validateDateTime e time_max with
                   | Some upto =>
                       Return [Log_propertyId_eq property_id;
                               Log_timestamp_ge d; Log_timestamp_ge upto]
                   | None =>
                       Raise (Server.bad_request
                         "Unable to parse end_date. Use YYYY-MM-DD or YYYY-MM-DDTHH:MM:SS")
                   end
               | None =>
                   Return [Log_propertyId_eq property_id; Log_timestamp_ge d]
               end).
  { intros s d V. unfold Server.events_query.
    rewrite (validated_is_truthy _ _ _ V), V. reflexivity. }
  assert (S : forall rest l,
             In l (all_logs (Log_propertyId_eq property_id
                             :: Log_timestamp_ge from_late :: rest) db) ->
             In l (all_logs (Log_propertyId_eq property_id
                             :: Log_timestamp_ge from_early :: rest) db)).
  { intros rest l. unfold all_logs. rewrite !filter_In. simpl.
    rewrite !andb_true_iff. intros (Hin & P & T & R).
    repeat split; auto. exact (sql_ge_trans _ _ _ T G). }
  unfold Server.get_property_events.
  rewrite (Q _ _ Ve), (Q _ _ Vl).
  destruct (Server.truthy end_date) as [e|];
    [destruct (Server.validateDateTime e time_max) as [d|]|]; cbn [bind];
    try discriminate.
  - specialize (S [Log_timestamp_ge d]).
    destruct (all_logs [Log_propertyId_eq property_id;
                        Log_timestamp_ge from_late; Log_timestamp_ge d] db)
      as [|x xs] eqn:A; [discriminate|].
    rewrite (log_copy_id (x :: xs)). intros [= <-].
    destruct (all_logs [Log_propertyId_eq property_id;
                        Log_timestamp_ge from_early; Log_timestamp_ge d] db)
      as [|y ys] eqn:B.
    + destruct (S x (or_introl eq_refl)).
    + rewrite (log_copy_id (y :: ys)). eexists. split; [reflexivity|exact S].
  - specialize (S []).
    destruct (all_logs [Log_propertyId_eq property_id;
                        Log_timestamp_ge from_late] db)
      as [|x xs] eqn:A; [discriminate|].
    rewrite (log_copy_id (x :: xs)). intros [= <-].
    destruct (all_logs [Log_propertyId_eq property_id;
                        Log_timestamp_ge from_early] db)
      as [|y ys] eqn:B.
    + destruct (S x (or_introl eq_refl)).
    + rewrite (log_copy_id (y :: ys)). eexists. split; [reflexivity|exact S].
Qed.

(** Witness of X14: property 1 from 2024-03-02 and from 2024-03-01. *)
Lemma later_start_lists_no_more_witness :
  exists more,
    Server.get_property_events 1 (Some "2024-03-01") None Scenario.two_events
    = Return more
    /\ forall l, In l [Scenario.repair] -> In l more.
Proof.
  exact (later_start_lists_no_more 1 "2024-03-01" "2024-03-02"
           (mkDatetime 2024 3 1 0 0 0 0 None)
           (mkDatetime 2024 3 2 0 0 0 0 None)
           None Scenario.two_events [Scenario.repair]
           eq_refl eq_refl eq_refl eq_refl).
Defined.

(* ================================================================= *)
(** ** [validateDateTime] *)

(** X15: the date-only form takes the default time.  For a string of the
    form [YYYY-MM-DD] that [validateDateTime] accepts, the answer is
    naive, its time of day is the default given, and its date is the date
    the parser read. *)
Theorem date_only_takes_default_time
        (s : string) (defaultTime : time) (d : datetime) :
  is_date_only s = true ->
  Server.validateDateTime s defaultTime = Some d ->
  datetime_time d = defaultTime
  /\ tzinfo d = None
  /\ exists parsed,
       fromisoformat s = Some parsed
       /\ (year d, month d, day d) = (year parsed, month parsed, day parsed).
Proof.
  intros L. unfold Server.validateDateTime.
  destruct (fromisoformat s) as [parsed|] eqn:P; [|discriminate].
  destruct (date_only_is_midnight s parsed L P) as [M _].
  rewrite M. simpl. intros [= <-].
  split; [now destruct defaultTime|].
  split; [reflexivity|]. exists parsed. split; reflexivity.
Qed.

(** Witness of X15: ["2024-03-01"] as an end bound. *)
Lemma date_only_takes_default_time_witness :
  datetime_time (mkDatetime 2024 3 1 23 59 59 999999 None) = time_max.
Proof.
  exact (proj1 (date_only_takes_default_time "2024-03-01" time_max
                  (mkDatetime 2024 3 1 23 59 59 999999 None)
                  eq_refl eq_refl)).
Defined.

(** X16: an end bound is never midnight.  What [validateDateTime] answers
    with the default [time.max], as [get_property_events] calls it for
    [end_date], never has the time of day 00:00:00.000000; it has the
    time of day 23:59:59.999999 whenever the parser read midnight, and is
    what the parser read otherwise. *)
Theorem end_bound_is_never_midnight (s : string) (d : datetime) :
  Server.validateDateTime s time_max = Some d ->
  datetime_time d <> time_min
  /\ exists parsed,
       fromisoformat s = Some parsed
       /\ ((datetime_time parsed = time_min /\ d = combine parsed time_max)
           \/ (datetime_time parsed <> time_min /\ d = parsed)).
Proof.
  unfold Server.validateDateTime.
  destruct (fromisoformat s) as [parsed|]; [|discriminate].
  destruct (time_eqb (datetime_time parsed) time_min) eqn:T; intros [= <-].
  - split; [discriminate|]. exists parsed. split; [reflexivity|]. left.
    split; [|reflexivity].
    unfold time_eqb in T. rewrite !andb_true_iff, !Z.eqb_eq in T.
    destruct T as [[[H M] S] U].
    destruct (datetime_time parsed) as [h m sec us]; simpl in *.
    unfold time_min. congruence.
  - assert (N : datetime_time parsed <> time_min).
    { intros E. rewrite E in T. discriminate. }
    split; [exact N|]. exists parsed. split; [reflexivity|]. now right.
Qed.

(** Witness of X16: ["2024-01-01T00:00:00"] as an end bound. *)
Lemma end_bound_is_never_midnight_witness :
  datetime_time (mkDatetime 2024 1 1 23 59 59 999999 None) <> time_min.
Proof.
  exact (proj1 (end_bound_is_never_midnight "2024-01-01T00:00:00"
                  (mkDatetime 2024 1 1 23 59 59 999999 None) eq_refl)).
Defined.

(* ================================================================= *)
(** ** The remaining handlers *)

(** X17: [delete_property] raises the error of the driver exactly when
    the id is outside the signed 64 bits, raises the 404 exactly when the
    id is inside and no stored property has it, and otherwise returns the
    message "Property and associated logs deleted.". *)
Theorem delete_property_not_found_iff (property_id : Z) (db : Session) :
  (Endpoint.delete_property property_id db = Raise overflow_error
   <-> in_int64 property_id = false)
  /\ (Endpoint.delete_property property_id db
      = Raise (Server.not_found "Property not found.")
      <-> in_int64 property_id = true
          /\ forall p, In p (properties db) -> Property.id p <> property_id)
  /\ ((in_int64 property_id = true
       /\ exists p, In p (properties db) /\ Property.id p = property_id)
      <-> exists db',
            Endpoint.delete_property property_id db
            = Return ([("message", "Property and associated logs deleted.")],
                      db')).
Proof.
  unfold Endpoint.delete_property, bound, Server.delete_property.
  destruct (in_int64 property_id).
  - destruct (first (all_properties_by_id property_id db)) as [q|] eqn:F.
    + destruct (first_by_id _ _ _ F) as [Hin E].
      split; [|split].
      * split; discriminate.
      * split; [discriminate|]. intros [_ H]. now destruct (H q Hin).
      * split.
        -- intros _. eexists; reflexivity.
        -- intros _. split; [reflexivity|]. exists q. now split.
    + pose proof (proj1 (first_by_id_none _ _) F) as F'; clear F;
        rename F' into F.
      split; [|split].
      * split; discriminate.
      * split; [now split|reflexivity].
      * split.
        -- intros [_ (p & Hin & E)]. now destruct (F p Hin).
        -- intros (db' & [=]).
  - split; [|split].
    + split; reflexivity.
    + split; [discriminate|]. intros [[=] _].
    + split.
      * intros [[=] _].
      * intros (db' & [=]).
Qed.

Section IndexOrder.

Lemma index_leb_total (a b : Z * string) :
  index_leb a b = false -> index_leb b a = true.
Proof.
  unfold index_leb. rewrite (String.compare_antisym (snd a) (snd b)).
  destruct (String.compare (snd b) (snd a)); simpl; try congruence.
  intros H. apply Z.leb_gt in H. apply Z.leb_le. lia.
Qed.

Lemma index_insert_perm (x : Z * string) (l : list (Z * string)) :
  Permutation (index_insert x l) (x :: l).
Proof.
  induction l as [|y l IH]; simpl; [reflexivity|].
  destruct (index_leb x y); [reflexivity|].
  rewrite IH. apply perm_swap.
Qed.

Lemma index_scan_perm (l : list (Z * string)) :
  Permutation (index_scan l) l.
Proof.
  induction l as [|x l IH]; simpl; [reflexivity|].
  rewrite index_insert_perm. now constructor.
Qed.

Lemma index_insert_sorted (x : Z * string) (l : list (Z * string)) :
  Sorted (fun a b => index_leb a b = true) l ->
  Sorted (fun a b => index_leb a b = true) (index_insert x l).
Proof.
  induction 1 as [|y l S IH H]; simpl.
  - repeat constructor.
  - destruct (index_leb x y) eqn:E.
    + constructor; [now constructor|]. now constructor.
    + constructor; [exact IH|].
      destruct l as [|z l]; simpl.
      * constructor. now apply index_leb_total.
      * destruct (index_leb x z); constructor;
          [now apply index_leb_total|now inversion H].
Qed.

Lemma index_scan_sorted (l : list (Z * string)) :
  Sorted (fun a b => index_leb a b = true) (index_scan l).
Proof.
  induction l as [|x l IH]; simpl; [constructor|].
  now apply index_insert_sorted.
Qed.

End IndexOrder.

(** X18: [get_all_properties] never raises and shows the whole table.
    After [create_property] the later variant answers the records that
    were stored, in their order, and then the new one.  The earlier
    variant answers the id and the number of the same records, each once,
    in the order of the numbers (by id within one number).  On the empty
    store both answer the empty list. *)
Theorem get_all_properties_after_create
        (number notes : string) (db db' : Session) (p : Property.t) :
  Server.create_property number notes db = Return (p, db') ->
  Server.get_all_properties db' = Return (properties db ++ [p])
  /\ (exists listed,
        Legacy.get_all_properties db' = Return listed
        /\ Permutation listed
             (map (fun q => (Property.id q, Property.number q))
                  (properties db)
              ++ [(Property.id p, number)])
        /\ Sorted (fun a b => index_leb a b = true) listed)
  /\ Server.get_all_properties Scenario.empty = Return []
  /\ Legacy.get_all_properties Scenario.empty = Return [].
Proof.
  intros [= <- <-].
  split; [|split; [|split; reflexivity]].
  - unfold Server.get_all_properties. simpl. f_equal.
    rewrite <- (map_id (properties db ++ _)) at 2.
    apply map_ext. now intros [i n t].
  - unfold Legacy.get_all_properties. eexists. split; [reflexivity|]. split.
    + rewrite index_scan_perm. simpl. now rewrite map_app.
    + apply index_scan_sorted.
Qed.

(** Witness of X18: property 2, numbered "0", created beside property 1,
    numbered "101": the earlier variant lists it first. *)
Lemma get_all_properties_after_create_witness :
  Server.get_all_properties
    (mkSession [Scenario.unit_101; Property.mk 2 "0" ""] [])
  = Return [Scenario.unit_101; Property.mk 2 "0" ""]
  /\ Legacy.get_all_properties
       (mkSession [Scenario.unit_101; Property.mk 2 "0" ""] [])
     = Return [(2, "0"); (1, "101")].
Proof.
  split; [|vm_compute; reflexivity].
  exact (proj1 (get_all_properties_after_create "0" ""
                  (mkSession [Scenario.unit_101] []) _ (Property.mk 2 "0" "")
                  eq_refl)).
Defined.


(* ================================================================= *)
(** ** Start as a script *)

(** X21: run as a script with no [HOST] in the environment, the later
    variant ends in the [ValueError] of [int("0.0.0.0")], whatever [PORT]
    is, and [uvicorn.run] is not reached. *)
Theorem main_fails_on_default_host (env : Main.environ) :
  env "HOST" = None ->
  Main.main env = Main.ValueError.
Proof.
  intros H. unfold Main.main, Main.getenv. rewrite H. reflexivity.
Qed.

(** Witness of X21: the empty environment. *)
Lemma main_fails_on_default_host_witness :
  Main.main (fun _ => None) = Main.ValueError.
Proof.
  exact (main_fails_on_default_host (fun _ => None) eq_refl).
Defined.
